(** * Account REST service: the route layer of [service/routes.py]

    The handlers of [service/routes.py] are embedded as computations in a
    small state-and-failure monad over the Account table.  The Flask
    primitives the handlers call ([request.get_json], [abort],
    [make_response], [jsonify]) are given their documented behaviour; the
    [Account] model class and the status constants, which the routes import
    from modules that are not among the sources, are modelled from the
    specification. *)

From Stdlib Require Import Ascii.
From stdpp Require Import gmap strings list fin_maps.

Open Scope string_scope.
Open Scope Z_scope.

(** ** JSON values

    [request.get_json()] yields Python values built from [None], booleans,
    numbers, strings, lists and dicts.  A dict is a finite map on its keys.
    Numbers are the integers (identifiers are integers; no handler does
    arithmetic on a number). *)

#[warnings="-register-all"]
Inductive json : Type :=
  | JNull
  | JBool (b : bool)
  | JNum (n : Z)
  | JStr (s : string)
  | JArr (l : list json)
  | JObj (m : gmap string json).

(** ** HTTP status codes, [service.common.status] *)

Module status.
(** Modelled from the spec: [service/common/status.py] is not among the
    sources; each constant carries the code its name spells, the codes
    the specification gives for the operations (200, 201, 204, 400, 404,
    415). *)
Definition HTTP_200_OK : Z := 200.
Definition HTTP_201_CREATED : Z := 201.
Definition HTTP_204_NO_CONTENT : Z := 204.
Definition HTTP_400_BAD_REQUEST : Z := 400.
Definition HTTP_404_NOT_FOUND : Z := 404.
Definition HTTP_415_UNSUPPORTED_MEDIA_TYPE : Z := 415.
Definition HTTP_500_INTERNAL_SERVER_ERROR : Z := 500.
End status.

(** ** Requests and responses *)

(** What a handler reads of the request: the [Content-Type] header
    ([None] when the header is absent) and the body as [get_json] sees it
    ([None] when the body is empty or is not JSON text). *)
Record Request : Type := mkRequest {
  content_type : option string;
  body : option json
}.

(** The first argument of [make_response]: [jsonify(...)] or a text. *)
Inductive Body : Type :=
  | jsonify (j : json)
  | text (s : string).

Record Response : Type := make_response {
  resp_body : Body;
  resp_status : Z;
  resp_headers : gmap string string
}.

(** Python exceptions a handler lets escape. *)
Inductive exn : Type :=
  | DataValidationError (msg : string)
  | KeyError (key : string)
  | TypeError
  | PersistenceError.

(** How a handler stops without a response: [abort(code, description)],
    or an exception. *)
Inductive failure : Type :=
  | Aborted (code : Z) (description : string)
  | Raised (e : exn).

(** ** Calendar dates, [datetime.date]

    [date_joined] is a date.  The tests compare the serialized field with
    [str(account.date_joined)], the ISO text [YYYY-MM-DD]; a payload
    carries the same text. *)

Module date.
Record t : Type := mk { year : Z; month : Z; day : Z }.

Definition is_leap (y : Z) : bool :=
  (y mod 4 =? 0) && (negb (y mod 100 =? 0) || (y mod 400 =? 0)).

Definition days_in_month (y m : Z) : Z :=
  match m with
  | 1 | 3 | 5 | 7 | 8 | 10 | 12 => 31
  | 4 | 6 | 9 | 11 => 30
  | 2 => if is_leap y then 29 else 28
  | _ => 0
  end.

(** The dates [datetime.date] can hold: years 1 to 9999. *)
Definition valid (d : t) : bool :=
  (1 <=? year d) && (year d <=? 9999) &&
  (1 <=? day d) && (day d <=? days_in_month (year d) (month d)).

Definition digit_of (c : ascii) : option Z :=
  let n := Z.of_N (N_of_ascii c) in
  if (48 <=? n) && (n <=? 57) then Some (n - 48) else None.

Definition char_of (n : Z) : ascii := ascii_of_N (Z.to_N (48 + n)).

Definition pad2 (n : Z) : string :=
  String (char_of (n / 10)) (String (char_of (n mod 10)) "").

Definition pad4 (n : Z) : string :=
  String (char_of (n / 1000 mod 10)) (String (char_of (n / 100 mod 10))
    (pad2 (n mod 100))).

(** [d.isoformat()], which is also [str(d)]. *)
Definition isoformat (d : t) : string :=
  pad4 (year d) +:+ "-" +:+ pad2 (month d) +:+ "-" +:+ pad2 (day d).

(** [date.fromisoformat(s)]: exactly [YYYY-MM-DD], naming a date of the
    calendar; [None] stands for the [ValueError]. *)
Definition fromisoformat (s : string) : option t :=
  match s with
  | String y1 (String y2 (String y3 (String y4 (String "-"
    (String m1 (String m2 (String "-"
    (String d1 (String d2 EmptyString))))))))) =>
      a ← digit_of y1; b ← digit_of y2; c ← digit_of y3; e ← digit_of y4;
      f ← digit_of m1; g ← digit_of m2;
      h ← digit_of d1; i ← digit_of d2;
      let d := mk (1000 * a + 100 * b + 10 * c + e) (10 * f + g) (10 * h + i) in
      if valid d then Some d else None
  | _ => None
  end.
End date.

(** ** The Account table and the handler monad *)

Module Table.
(** Modelled from the spec: the persistence layer is not among the
    sources.  "A single Account resource backed by a relational table";
    "[id] is unique across all live Accounts and never reused after
    deletion": rows keyed by their identifier, and a counter from which
    the persistence layer draws the next identifier. *)
Record row : Type := mkrow {
  name : string;
  email : string;
  address : string;
  phone_number : string;
  date_joined : date.t
}.

Record t : Type := mk {
  rows : gmap Z row;
  next_id : Z
}.

Definition empty : t := mk ∅ 1.
End Table.

(** The calls of the persistence interface, as a handler issues them. *)
Inductive db_call : Type :=
  | CallCreate
  | CallFind
  | CallAll
  | CallUpdate
  | CallDelete.

(** The state a request runs in: the table, and the persistence calls
    issued so far (latest first). *)
Record World : Type := mkWorld {
  db : Table.t;
  calls : list db_call
}.

(** A handler step: it reads and writes the world, and either yields a
    value or stops with a [failure]. *)
Definition M (A : Type) : Type := World → (failure + A) * World.

#[global] Instance M_ret : MRet M := λ A a w, (inr a, w).

#[global] Instance M_bind : MBind M := λ A B f m w,
  match m w with
  | (inl e, w') => (inl e, w')
  | (inr a, w') => f a w'
  end.

(** [abort(code, description)] *)
Definition abort {A : Type} (code : Z) (description : string) : M A :=
  λ w, (inl (Aborted code description), w).

(** [raise e] *)
Definition raise {A : Type} (e : exn) : M A :=
  λ w, (inl (Raised e), w).

(** One call of the persistence interface: logged, then run on the table. *)
Definition db_op {A : Type} (c : db_call) (f : Table.t → (failure + A) * Table.t) : M A :=
  λ w, let '(r, t) := f (db w) in (r, mkWorld t (c :: calls w)).

(** ** The Account model, [service.models.Account] *)

Module Account.
(** Modelled from the spec: [service/models.py] is not among the
    sources.  What follows is the specification's data model (section 3)
    and persistence interface (section 6):
    [create(record) -> record_with_id], [find(id) -> record | absent],
    [all() -> sequence of record], [update(record) -> record | fails],
    [delete(record) -> (void, idempotent)]. *)

(** An Account object.  [id] is [None] until the persistence layer
    assigns it. *)
Record t : Type := mk {
  id : option Z;
  name : string;
  email : string;
  address : string;
  phone_number : string;
  date_joined : date.t
}.

(** [Account()]: not yet persisted, nothing filled in; "[date_joined]:
    date value, defaulted at creation if not supplied". *)
Definition new (today : date.t) : t := mk None "" "" "" "" today.

Definition to_row (a : t) : Table.row :=
  Table.mkrow (name a) (email a) (address a) (phone_number a) (date_joined a).

Definition of_row (i : Z) (r : Table.row) : t :=
  mk (Some i) (Table.name r) (Table.email r) (Table.address r)
     (Table.phone_number r) (Table.date_joined r).

(** A required text field of the payload. *)
Definition text_field (m : gmap string json) (k : string) : option string :=
  match m !! k with
  | Some (JStr s) => Some s
  | _ => None
  end.

(** The optional [date_joined] of the payload: [Some None] when the
    payload omits it, [Some (Some d)] when it carries the ISO text of the
    date [d], [None] when it carries anything else. *)
Definition date_field (m : gmap string json) (k : string) : option (option date.t) :=
  match m !! k with
  | None => Some None
  | Some (JStr s) => Some <$> date.fromisoformat s
  | Some _ => None
  end.

(** The decoding step of [deserialize]: "body must deserialize into a
    valid Account record type (wrong type/missing required fields ->
    error)".  [name] is "non-empty text", [email], [address] and
    [phone_number] are "text", [date_joined] is a "date value" and may be
    omitted.  Every field of the body replaces the field of [self]; [id]
    is never written ("update operations may overwrite any field except
    [id]"). *)
Definition decode (self : t) (data : json) : option t :=
  match data with
  | JObj m =>
      n ← text_field m "name";
      guard (n ≠ "");;
      e ← text_field m "email";
      a ← text_field m "address";
      p ← text_field m "phone_number";
      d ← date_field m "date_joined";
      Some (mk (id self) n e a p (default (date_joined self) d))
  | _ => None
  end.

(** [self.deserialize(data)]: a body that does not decode raises the
    validation error. *)
Definition deserialize (self : t) (data : json) : M t :=
  match decode self data with
  | Some a => mret a
  | None => raise (DataValidationError "Invalid Account: body of request contained bad or no data")
  end.

(** [self.serialize()]: "each fully serialized"; the date as
    [str(date_joined)]. *)
Definition serialize (self : t) : json :=
  JObj (<["id" := from_option JNum JNull (id self)]>
       (<["name" := JStr (name self)]>
       (<["email" := JStr (email self)]>
       (<["address" := JStr (address self)]>
       (<["phone_number" := JStr (phone_number self)]>
       (<["date_joined" := JStr (date.isoformat (date_joined self))]> ∅)))))).

(** [self.create()]: the persistence layer assigns the next identifier
    and inserts the row. *)
Definition create (self : t) : M t :=
  db_op CallCreate (λ tb,
    let i := Table.next_id tb in
    let a := mk (Some i) (name self) (email self) (address self)
                (phone_number self) (date_joined self) in
    (inr a, Table.mk (<[i := to_row a]> (Table.rows tb)) (i + 1))).

(** [Account.find(by_id)]: the record with that identifier, or absent.
    The identifiers are integers: no other value names a record. *)
Definition lookup (tb : Table.t) (by_id : json) : option t :=
  match by_id with
  | JNum i => of_row i <$> Table.rows tb !! i
  | _ => None
  end.

Definition find (by_id : json) : M (option t) :=
  db_op CallFind (λ tb, (inr (lookup tb by_id), tb)).

(** [Account.all()] *)
Definition all : M (list t) :=
  db_op CallAll (λ tb,
    (inr (uncurry of_row <$> map_to_list (Table.rows tb)), tb)).

(** [self.update()]: rewrites the row of [self.id]; fails when there is
    no such row. *)
Definition update (self : t) : M t :=
  db_op CallUpdate (λ tb,
    match id self with
    | Some i =>
        match Table.rows tb !! i with
        | Some _ => (inr self, Table.mk (<[i := to_row self]> (Table.rows tb)) (Table.next_id tb))
        | None => (inl (Raised PersistenceError), tb)
        end
    | None => (inl (Raised PersistenceError), tb)
    end).

(** [self.delete()]: removes the row of [self.id]; nothing to do when
    there is none. *)
Definition delete (self : t) : M unit :=
  db_op CallDelete (λ tb,
    match id self with
    | Some i => (inr (), Table.mk (base.delete i (Table.rows tb)) (Table.next_id tb))
    | None => (inr (), tb)
    end).
End Account.

(** ** Flask primitives used by the routes *)

(** [request.get_json()], called once the content type is known to be
    [application/json]: the parsed body; a body that is not JSON text is a
    400 (Werkzeug's [BadRequest]). *)
Definition get_json (request : Request) : M json :=
  match body request with
  | Some j => mret j
  | None => abort status.HTTP_400_BAD_REQUEST "Failed to decode JSON object"
  end.

(** Python's [value[key]] for a string key: the entry of a dict,
    [KeyError] when the dict has no such key, [TypeError] on anything that
    is not a dict. *)
Definition getitem (value : json) (key : string) : M json :=
  match value with
  | JObj m =>
      match m !! key with
      | Some v => mret v
      | None => raise (KeyError key)
      end
  | _ => raise TypeError
  end.

(** Python's truth value of [headers.get(...)]: [None] and the empty
    string are false. *)
Definition truthy (o : option string) : bool :=
  match o with
  | Some s => bool_decide (s ≠ "")
  | None => false
  end.

(** ** [service/routes.py] *)

Definition check_content_type (request : Request) (media_type : string) : M unit :=
  let content_type := content_type request in
  if truthy content_type && bool_decide (content_type = Some media_type)
  then mret ()
  else abort status.HTTP_415_UNSUPPORTED_MEDIA_TYPE
             ("Content-Type must be " +:+ media_type).

Definition health : M Response :=
  mret (make_response (jsonify (JObj {["status" := JStr "OK"]})) status.HTTP_200_OK ∅).

Definition index : M Response :=
  mret (make_response
          (jsonify (JObj (<["name" := JStr "Account REST API Service"]>
                         (<["version" := JStr "1.0"]> ∅))))
          status.HTTP_200_OK ∅).

(** [today] is the date [Account()] defaults [date_joined] to. *)
Definition create_accounts (today : date.t) (request : Request) : M Response :=
  check_content_type request "application/json";;
  let account := Account.new today in
  data ← get_json request;
  account ← Account.deserialize account data;
  account ← Account.create account;
  let message := Account.serialize account in
  let location_url := "/" in
  mret (make_response (jsonify message) status.HTTP_201_CREATED
                      {["Location" := location_url]}).

Definition read_all_accounts : M Response :=
  accounts ← Account.all;
  let accountList := Account.serialize <$> accounts in
  mret (make_response (jsonify (JArr accountList)) status.HTTP_200_OK ∅).

Definition read_account (request : Request) : M Response :=
  check_content_type request "application/json";;
  data ← get_json request;
  accountId ← getitem data "id";
  account ← Account.find accountId;
  match account with
  | None => abort status.HTTP_404_NOT_FOUND "The account cannot be found"
  | Some account =>
      mret (make_response (jsonify (Account.serialize account)) status.HTTP_200_OK ∅)
  end.

Definition update_account (request : Request) : M Response :=
  check_content_type request "application/json";;
  data ← get_json request;
  accountId ← getitem data "id";
  account ← Account.find accountId;
  match account with
  | None => abort status.HTTP_404_NOT_FOUND "The account cannot be found"
  | Some account =>
      data ← get_json request;
      account ← Account.deserialize account data;
      account ← Account.update account;
      mret (make_response (jsonify (Account.serialize account)) status.HTTP_200_OK ∅)
  end.

Definition delete_account (request : Request) : M Response :=
  check_content_type request "application/json";;
  data ← get_json request;
  accountId ← getitem data "id";
  account ← Account.find accountId;
  match account with
  | Some account => Account.delete account
  | None => mret ()
  end;;
  mret (make_response (text "") status.HTTP_204_NO_CONTENT ∅).

(** ** What the client sees *)

(** The status line of the reply.  A response carries its own status and
    [abort] its code.  Modelled from the spec:
    [service/common/error_handlers.py] is not among the sources; a
    validation error is "surfaced to the client as HTTP 400", any other
    escaping exception "as a generic server error (HTTP 500-class)". *)
Definition status_code (r : failure + Response) : Z :=
  match r with
  | inr resp => resp_status resp
  | inl (Aborted code _) => code
  | inl (Raised (DataValidationError _)) => status.HTTP_400_BAD_REQUEST
  | inl (Raised _) => status.HTTP_500_INTERNAL_SERVER_ERROR
  end.

(** The error message of the reply, when it is an error with one. *)
Definition error_message (r : failure + Response) : option string :=
  match r with
  | inl (Aborted _ description) => Some description
  | inl (Raised (DataValidationError msg)) => Some msg
  | _ => None
  end.

(** Requests as the test client builds them with [json=...] and
    [content_type="application/json"]. *)
Definition json_request (j : json) : Request :=
  mkRequest (Some "application/json") (Some j).

(** The world of a fresh table on which no call was issued yet. *)
Definition fresh (tb : Table.t) : World := mkWorld tb [].

(** ** Well-formed tables, valid payloads *)

(** Every stored identifier was drawn from the counter. *)
Definition table_wf (tb : Table.t) : Prop :=
  map_Forall (λ i _, i < Table.next_id tb) (Table.rows tb).

(** A valid Account payload, in the words of the data model: an object
    whose [name] is a non-empty text, whose [email], [address] and
    [phone_number] are texts, and whose [date_joined], if present, is the
    ISO text of a date. *)
Definition valid_payload (data : json) : bool :=
  match data with
  | JObj m =>
      match m !! "name" with Some (JStr n) => bool_decide (n ≠ "") | _ => false end
      && match m !! "email" with Some (JStr _) => true | _ => false end
      && match m !! "address" with Some (JStr _) => true | _ => false end
      && match m !! "phone_number" with Some (JStr _) => true | _ => false end
      && match m !! "date_joined" with
         | None => true
         | Some (JStr s) => bool_decide (is_Some (date.fromisoformat s))
         | Some _ => false
         end
  | _ => false
  end.

(** The text fields of an Account. *)
Definition text_fields : list string :=
  ["name"; "email"; "address"; "phone_number"].

(** The field [k] of a JSON object, [None] on anything else. *)
Definition field (j : json) (k : string) : option json :=
  match j with
  | JObj m => m !! k
  | _ => None
  end.

(** The JSON document of a response, if it has one. *)
Definition json_of (b : Body) : option json :=
  match b with
  | jsonify j => Some j
  | text _ => None
  end.

(** The scenario payload of the specification. *)
Definition alice : json :=
  JObj (<["name" := JStr "Alice"]> (<["email" := JStr "a@x.com"]>
       (<["address" := JStr "1 Main St"]> (<["phone_number" := JStr "555-1111"]> ∅)))).

(** A day to run the examples on. *)
Definition leap_day : date.t := date.mk 2024 2 29.

(** The world once the scenario payload has been posted to an empty
    table: one Account, of identifier 1. *)
Definition one_account : World :=
  (create_accounts leap_day (json_request alice) (fresh Table.empty)).2.

(** A full payload naming the Account of identifier 1, as an update
    sends it. *)
Definition bob : json :=
  JObj (<["id" := JNum 1]> (<["name" := JStr "Bob"]> (<["email" := JStr "b@x.com"]>
       (<["address" := JStr "2 Main St"]> (<["phone_number" := JStr "555-2222"]>
       (<["date_joined" := JStr "2023-01-31"]> ∅)))))).

(** ** Sessions of creates and deletes *)

(** What a client does to fill and empty the table: post a payload, or
    delete an identifier. *)
Inductive op : Type :=
  | Create (P : json)
  | Delete (i : Z).

(** The world after a session, the identifiers its creates returned
    (latest first), and how many of its deletes found their Account. *)
Record session : Type := mkSession {
  world : World;
  created : list Z;
  deleted : nat
}.

(** The identifier a create response announces in its JSON body. *)
Definition created_id (r : failure + Response) : option Z :=
  match r with
  | inr resp =>
      match json_of (resp_body resp) ≫= (λ j, field j "id") with
      | Some (JNum i) => Some i
      | _ => None
      end
  | inl _ => None
  end.

Definition step (today : date.t) (s : session) (o : op) : session :=
  match o with
  | Create P =>
      let '(r, w') := create_accounts today (json_request P) (world s) in
      mkSession w' (from_option (λ i, i :: created s) (created s) (created_id r))
                (deleted s)
  | Delete i =>
      let live := bool_decide (is_Some (Table.rows (db (world s)) !! i)) in
      let '(_, w') := delete_account (json_request (JObj {["id" := JNum i]})) (world s) in
      mkSession w' (created s) (if live then S (deleted s) else deleted s)
  end.

Definition run (today : date.t) (ops : list op) : session :=
  foldl (step today) (mkSession (fresh Table.empty) [] 0%nat) ops.

(** The invariant of a session: the table is well formed, it holds the
    created Accounts less the deleted ones, and only created ones. *)
Definition session_inv (s : session) : Prop :=
  table_wf (db (world s)) ∧
  (size (Table.rows (db (world s))) + deleted s = length (created s))%nat ∧
  ∀ i, is_Some (Table.rows (db (world s)) !! i) → i ∈ created s.

(** ** The test client, [tests/test_routes.py] *)

(** How a test stops: a failed [assertEqual], or an exception raised by
    the test's own code. *)
Inductive test_failure : Type :=
  | AssertionError (msg : string)
  | Errored (e : exn)
  | IndexError.

(** [response.get_json()] on the client's side: the JSON document of the
    response; [None], as in Python, when the reply has none. *)
Definition response_json (r : failure + Response) : option json :=
  match r with
  | inr resp => json_of (resp_body resp)
  | inl _ => None
  end.

(** [new_account["id"]], on what [response.get_json()] returned. *)
Definition response_id (new_account : option json) : exn + json :=
  match new_account with
  | Some (JObj m) =>
      match m !! "id" with
      | Some v => inr v
      | None => inl (KeyError "id")
      end
  | _ => inl TypeError
  end.

(** [account.id = v]: integers and [None] are the identifiers an
    [Account.t] holds. *)
Definition set_id (account : Account.t) (v : json) : Account.t :=
  Account.mk (match v with JNum i => Some i | _ => None end)
             (Account.name account) (Account.email account) (Account.address account)
             (Account.phone_number account) (Account.date_joined account).

(** [_create_accounts(count)].  The Accounts that the [count] calls of
    [AccountFactory()] produce are taken as the list [factory]
    ([tests/factories.py] is not among the sources). *)
Fixpoint _create_accounts (today : date.t) (factory : list Account.t) (w : World)
  : (test_failure + list Account.t) * World :=
  match factory with
  | [] => (inr [], w)
  | account :: factory =>
      let '(response, w) :=
        create_accounts today (json_request (Account.serialize account)) w in
      if bool_decide (status_code response = status.HTTP_201_CREATED) then
        let new_account := response_json response in
        match response_id new_account with
        | inr v =>
            let account := set_id account v in
            match _create_accounts today factory w with
            | (inr accounts, w) => (inr (account :: accounts), w)
            | (inl e, w) => (inl e, w)
            end
        | inl e => (inl (Errored e), w)
        end
      else (inl (AssertionError "Could not create test Account"), w)
  end.

(** Python's [len(x)] on what [response.get_json()] returned: the number
    of keys of a dict, the length of a list or of a string; [None], numbers
    and booleans have no length. *)
Definition len (x : option json) : exn + nat :=
  match x with
  | Some (JObj m) => inr (size m)
  | Some (JArr l) => inr (length l)
  | Some (JStr s) => inr (String.length s)
  | _ => inl TypeError
  end.

(** [delete_account_test]; [account] is what the one call of
    [AccountFactory()] inside [_create_accounts(1)] produces. *)
Definition delete_account_test (today : date.t) (account : Account.t) (w : World)
  : (test_failure + unit) * World :=
  match _create_accounts today [account] w with
  | (inl e, w) => (inl e, w)
  | (inr accounts, w) =>
      match accounts !! 0%nat with
      | None => (inl IndexError, w)
      | Some account =>
          let id := from_option JNum JNull (Account.id account) in
          let '(response1, w) := delete_account (json_request (JObj {["id" := id]})) w in
          if bool_decide (status_code response1 = status.HTTP_204_NO_CONTENT) then
            match len (response_json response1) with
            | inl e => (inl (Errored e), w)
            | inr n =>
                if bool_decide (n = 0%nat) then
                  let '(response2, w) :=
                    read_account (json_request (JObj {["id" := id]})) w in
                  if bool_decide (status_code response2 = status.HTTP_404_NOT_FOUND)
                  then (inr (), w)
                  else (inl (AssertionError "response2.status_code"), w)
                else (inl (AssertionError "len(response1.get_json())"), w)
            end
          else (inl (AssertionError "response1.status_code"), w)
      end
  end.

(** What the factory is relied on for: a name and a calendar date. *)
Definition factory_made (a : Account.t) : Prop :=
  Account.name a ≠ "" ∧ date.valid (Account.date_joined a) = true.

(** The factory's Accounts under consecutive identifiers from [n] on. *)
Fixpoint with_ids (n : Z) (accounts : list Account.t) : list Account.t :=
  match accounts with
  | [] => []
  | a :: accounts => set_id a (JNum n) :: with_ids (n + 1) accounts
  end.

(** * Properties *)

(** ** Dates *)

Example ex_date1 : date.fromisoformat "2024-02-29" = Some (date.mk 2024 2 29).
Proof. reflexivity. Qed.
Example ex_date2 : date.fromisoformat "2023-02-29" = None.
Proof. reflexivity. Qed.
Example ex_date3 : date.isoformat (date.mk 2024 2 29) = "2024-02-29".
Proof. reflexivity. Qed.

Lemma digit_of_inv c n : date.digit_of c = Some n → 0 ≤ n < 10 ∧ date.char_of n = c.
Proof.
  intros H.
  destruct c as [[] [] [] [] [] [] [] []]; vm_compute in H; try discriminate H;
    injection H as <-; (split; [lia | reflexivity]).
Qed.

Ltac euclid := Z.div_mod_to_equations; lia.

Lemma pad2_digits a b : 0 ≤ a < 10 → 0 ≤ b < 10 →
  date.pad2 (10 * a + b) = String (date.char_of a) (String (date.char_of b) "").
Proof.
  intros Ha Hb. unfold date.pad2.
  replace ((10 * a + b) / 10) with a by euclid.
  replace ((10 * a + b) mod 10) with b by euclid.
  done.
Qed.

Lemma pad4_digits a b c e : 0 ≤ a < 10 → 0 ≤ b < 10 → 0 ≤ c < 10 → 0 ≤ e < 10 →
  date.pad4 (1000 * a + 100 * b + 10 * c + e) =
  String (date.char_of a) (String (date.char_of b)
    (String (date.char_of c) (String (date.char_of e) ""))).
Proof.
  intros Ha Hb Hc He. unfold date.pad4.
  replace ((1000 * a + 100 * b + 10 * c + e) / 1000 mod 10) with a by euclid.
  replace ((1000 * a + 100 * b + 10 * c + e) / 100 mod 10) with b by euclid.
  replace ((1000 * a + 100 * b + 10 * c + e) mod 100) with (10 * c + e) by euclid.
  by rewrite pad2_digits.
Qed.

Lemma isoformat_fromisoformat s d :
  date.fromisoformat s = Some d → date.isoformat d = s.
Proof.
  unfold date.fromisoformat. intros H.
  repeat (match type of H with
          | match ?x with _ => _ end = _ => destruct x; try discriminate H
          end).
  repeat (apply bind_Some in H as (? & Hd & H);
          apply digit_of_inv in Hd as [? <-]).
  destruct (date.valid _); [|discriminate H]. injection H as <-.
  unfold date.isoformat; cbn [date.year date.month date.day].
  by rewrite pad4_digits, !pad2_digits.
Qed.

(** ** The handler monad *)

Lemma bind_ok {A B} (m : M A) (f : A → M B) w a w' :
  m w = (inr a, w') → (m ≫= f) w = f a w'.
Proof. intros H. unfold mbind, M_bind. by rewrite H. Qed.

Lemma bind_fail {A B} (m : M A) (f : A → M B) w e w' :
  m w = (inl e, w') → (m ≫= f) w = (inl e, w').
Proof. intros H. unfold mbind, M_bind. by rewrite H. Qed.

(** ** The content-type gate *)

Lemma check_content_type_json j w :
  check_content_type (json_request j) "application/json" w = (inr (), w).
Proof. reflexivity. Qed.

Lemma check_content_type_pass req w :
  content_type req = Some "application/json" →
  check_content_type req "application/json" w = (inr (), w).
Proof. intros H. unfold check_content_type. by rewrite H. Qed.

Lemma check_content_type_reject req w :
  content_type req ≠ Some "application/json" →
  check_content_type req "application/json" w =
  (inl (Aborted 415 "Content-Type must be application/json"), w).
Proof.
  intros H. unfold check_content_type.
  rewrite (bool_decide_eq_false_2 _ H), andb_false_r. reflexivity.
Qed.

Lemma gate_rejects today req w :
  content_type req ≠ Some "application/json" →
  let rejected := inl (Aborted 415 "Content-Type must be application/json") in
  create_accounts today req w = (rejected, w) ∧
  read_account req w = (rejected, w) ∧
  update_account req w = (rejected, w) ∧
  delete_account req w = (rejected, w).
Proof.
  intros H rejected.
  pose proof (check_content_type_reject req w H) as Hc.
  repeat split;
    unfold create_accounts, read_account, update_account, delete_account;
    by erewrite bind_fail.
Qed.

(** C4. A create, read-one, update or delete request whose Content-Type
    header is absent, or is anything but [application/json], is answered
    415 whatever its body; the handler stops at the gate, the world
    (table and persistence calls) as it was. *)
Theorem content_type_gate today req w :
  content_type req ≠ Some "application/json" →
  let rejected := inl (Aborted 415 "Content-Type must be application/json") in
  create_accounts today req w = (rejected, w) ∧
  read_account req w = (rejected, w) ∧
  update_account req w = (rejected, w) ∧
  delete_account req w = (rejected, w) ∧
  status_code rejected = status.HTTP_415_UNSUPPORTED_MEDIA_TYPE.
Proof.
  intros H rejected.
  destruct (gate_rejects today req w H) as (? & ? & ? & ?). done.
Qed.

Lemma content_type_gate_witness :
  let absent := mkRequest None (Some alice) in
  let html := mkRequest (Some "test/html") (Some alice) in
  status_code (create_accounts leap_day absent (fresh Table.empty)).1 = 415 ∧
  status_code (delete_account html (fresh Table.empty)).1 = 415.
Proof.
  intros absent html. split.
  - destruct (content_type_gate leap_day absent (fresh Table.empty)) as (-> & _);
      [discriminate | reflexivity].
  - destruct (content_type_gate leap_day html (fresh Table.empty)) as (_ & _ & _ & -> & _);
      [discriminate | reflexivity].
Defined.

(** ** Serialization and decoding *)

Lemma serialize_fields a :
  field (Account.serialize a) "id" = Some (from_option JNum JNull (Account.id a)) ∧
  field (Account.serialize a) "name" = Some (JStr (Account.name a)) ∧
  field (Account.serialize a) "email" = Some (JStr (Account.email a)) ∧
  field (Account.serialize a) "address" = Some (JStr (Account.address a)) ∧
  field (Account.serialize a) "phone_number" = Some (JStr (Account.phone_number a)) ∧
  field (Account.serialize a) "date_joined" =
    Some (JStr (date.isoformat (Account.date_joined a))).
Proof. repeat split; reflexivity. Qed.

Lemma text_field_Some m k s :
  Account.text_field m k = Some s ↔ m !! k = Some (JStr s).
Proof.
  unfold Account.text_field. destruct (m !! k) as [[]|]; naive_solver.
Qed.

(** What a successful decoding says of the payload and of the result. *)
Lemma decode_Some self data a :
  Account.decode self data = Some a →
  Account.id a = Account.id self ∧
  Account.name a ≠ "" ∧
  field data "name" = Some (JStr (Account.name a)) ∧
  field data "email" = Some (JStr (Account.email a)) ∧
  field data "address" = Some (JStr (Account.address a)) ∧
  field data "phone_number" = Some (JStr (Account.phone_number a)) ∧
  match field data "date_joined" with
  | Some v => v = JStr (date.isoformat (Account.date_joined a))
  | None => Account.date_joined a = Account.date_joined self
  end.
Proof.
  destruct data as [| | | | |m]; try discriminate. cbn [Account.decode field].
  intros H.
  apply bind_Some in H as (n & Hn%text_field_Some & H).
  apply bind_Some in H as (Hne & _ & H).
  apply bind_Some in H as (e & He%text_field_Some & H).
  apply bind_Some in H as (ad & Ha%text_field_Some & H).
  apply bind_Some in H as (p & Hp%text_field_Some & H).
  apply bind_Some in H as (d & Hd & H).
  injection H as <-. cbn.
  repeat split; try done.
  unfold Account.date_field in Hd.
  destruct (m !! "date_joined") as [[]|]; simplify_eq; [|done].
  apply fmap_Some in Hd as (d' & Hd' & ->). cbn.
  by rewrite (isoformat_fromisoformat _ _ Hd').
Qed.

Lemma decode_valid self data :
  valid_payload data = true → is_Some (Account.decode self data).
Proof.
  destruct data as [| | | | |m]; try discriminate. cbn [valid_payload Account.decode].
  rewrite !andb_true_iff. intros ((((Hn & He) & Ha) & Hp) & Hd).
  unfold Account.text_field, Account.date_field.
  destruct (m !! "name") as [[| | |n| |]|]; try discriminate.
  destruct (m !! "email") as [[| | |e| |]|]; try discriminate.
  destruct (m !! "address") as [[| | |a| |]|]; try discriminate.
  destruct (m !! "phone_number") as [[| | |p| |]|]; try discriminate.
  apply bool_decide_eq_true in Hn. cbn. rewrite option_guard_True by done. cbn.
  destruct (m !! "date_joined") as [[| | |s| |]|]; try discriminate; cbn; [|by eexists].
  apply bool_decide_eq_true in Hd as [d ->]. cbn. by eexists.
Qed.

Lemma decode_invalid self data :
  valid_payload data = false → Account.decode self data = None.
Proof.
  destruct data as [| | | | |m]; try done. cbn [valid_payload Account.decode].
  unfold Account.text_field, Account.date_field. intros H.
  destruct (m !! "name") as [[| | |n| |]|]; try done. cbn.
  case_guard; cbn; [|done].
  destruct (m !! "email") as [[| | |e| |]|]; try done.
  destruct (m !! "address") as [[| | |a| |]|]; try done.
  destruct (m !! "phone_number") as [[| | |p| |]|]; try done. cbn.
  rewrite bool_decide_eq_true_2 in H by done. cbn in H.
  destruct (m !! "date_joined") as [[| | |s| |]|]; try done. cbn.
  apply bool_decide_eq_false in H.
  destruct (date.fromisoformat s) eqn:E; [|done]. destruct H. by eexists.
Qed.

Lemma decode_text_fields self data a :
  Account.decode self data = Some a →
  ∀ k, k ∈ text_fields → field (Account.serialize a) k = field data k.
Proof.
  intros (_ & _ & Hn & He & Ha & Hp & _)%decode_Some k Hk.
  unfold text_fields in Hk. rewrite !elem_of_cons, elem_of_nil in Hk.
  destruct Hk as [->|[->|[->|[->|[]]]]]; by rewrite ?Hn, ?He, ?Ha, ?Hp.
Qed.

Lemma decode_date_joined self data a :
  Account.decode self data = Some a →
  field (Account.serialize a) "date_joined" =
  Some (default (JStr (date.isoformat (Account.date_joined self)))
                (field data "date_joined")).
Proof.
  intros (_ & _ & _ & _ & _ & _ & Hd)%decode_Some.
  destruct (field data "date_joined") as [v|]; cbn; [by subst v|by rewrite <- Hd].
Qed.

Lemma of_to_row i a : Account.id a = Some i → Account.of_row i (Account.to_row a) = a.
Proof. destruct a; cbn; by intros ->. Qed.

Lemma to_of_row i r : Account.to_row (Account.of_row i r) = r.
Proof. by destruct r. Qed.

(** ** The handlers, run *)

#[local] Arguments Account.decode : simpl never.
#[local] Arguments Account.serialize : simpl never.

(** The account [self] as [create] stores it under the identifier [i]. *)
Lemma create_accounts_run today data a w :
  Account.decode (Account.new today) data = Some a →
  let i := Table.next_id (db w) in
  let a' := Account.mk (Some i) (Account.name a) (Account.email a) (Account.address a)
                       (Account.phone_number a) (Account.date_joined a) in
  create_accounts today (json_request data) w =
  (inr (make_response (jsonify (Account.serialize a')) 201 {["Location" := "/"]}),
   mkWorld (Table.mk (<[i := Account.to_row a']> (Table.rows (db w))) (i + 1))
           (CallCreate :: calls w)).
Proof.
  intros H. unfold create_accounts, Account.deserialize. cbn.
  unfold mbind, M_bind. cbn. rewrite H. reflexivity.
Qed.

Lemma create_accounts_invalid today data w :
  Account.decode (Account.new today) data = None →
  ∃ msg, create_accounts today (json_request data) w =
         (inl (Raised (DataValidationError msg)), w).
Proof.
  intros H. eexists. unfold create_accounts, Account.deserialize.
  unfold mbind, M_bind. cbn. rewrite H. reflexivity.
Qed.

Lemma read_account_run m v w :
  m !! "id" = Some v →
  read_account (json_request (JObj m)) w =
  (match Account.lookup (db w) v with
   | Some a => inr (make_response (jsonify (Account.serialize a)) 200 ∅)
   | None => inl (Aborted 404 "The account cannot be found")
   end, mkWorld (db w) (CallFind :: calls w)).
Proof.
  intros H. unfold read_account, mbind, M_bind.
  rewrite check_content_type_json. cbn. rewrite H. cbn.
  by destruct (Account.lookup (db w) v).
Qed.

Lemma delete_account_run m v w :
  m !! "id" = Some v →
  delete_account (json_request (JObj m)) w =
  (inr (make_response (text "") 204 ∅),
   match Account.lookup (db w) v with
   | Some a => mkWorld (Table.mk (base.delete (default 0 (Account.id a)) (Table.rows (db w)))
                                 (Table.next_id (db w)))
                       (CallDelete :: CallFind :: calls w)
   | None => mkWorld (db w) (CallFind :: calls w)
   end).
Proof.
  intros H. unfold delete_account, mbind, M_bind.
  rewrite check_content_type_json. cbn. rewrite H. cbn.
  destruct (Account.lookup (db w) v) as [a|] eqn:E; [|done].
  destruct v; try discriminate. cbn in E.
  apply fmap_Some in E as (r & _ & ->). reflexivity.
Qed.

Lemma lookup_id tb v a : Account.lookup tb v = Some a → v = JNum (default 0 (Account.id a)).
Proof.
  destruct v; try discriminate. cbn. by intros (r & _ & ->)%fmap_Some.
Qed.

Lemma lookup_Some tb v a :
  Account.lookup tb v = Some a ↔
  ∃ i r, v = JNum i ∧ Table.rows tb !! i = Some r ∧ a = Account.of_row i r.
Proof.
  split.
  - destruct v; try discriminate. cbn. intros (r & Hr & ->)%fmap_Some. eauto.
  - intros (i & r & -> & Hr & ->). cbn. by rewrite Hr.
Qed.

Lemma update_account_run m v w :
  m !! "id" = Some v →
  update_account (json_request (JObj m)) w =
  match Account.lookup (db w) v with
  | None => (inl (Aborted 404 "The account cannot be found"),
             mkWorld (db w) (CallFind :: calls w))
  | Some stored =>
      match Account.decode stored (JObj m) with
      | None =>
          (inl (Raised (DataValidationError
                  "Invalid Account: body of request contained bad or no data")),
           mkWorld (db w) (CallFind :: calls w))
      | Some a =>
          (inr (make_response (jsonify (Account.serialize a)) 200 ∅),
           mkWorld (Table.mk (<[default 0 (Account.id stored) := Account.to_row a]>
                                (Table.rows (db w)))
                             (Table.next_id (db w)))
                   (CallUpdate :: CallFind :: calls w))
      end
  end.
Proof.
  intros H. unfold update_account, mbind, M_bind.
  rewrite check_content_type_json. cbn. rewrite H. cbn.
  destruct (Account.lookup (db w) v) as [stored|] eqn:E; [|done].
  apply lookup_Some in E as (i & r & -> & Hr & ->).
  unfold Account.deserialize.
  destruct (Account.decode _ _) as [a|] eqn:D; [|done].
  apply decode_Some in D as (Hid & _).
  unfold Account.update, db_op. cbn in *. by rewrite Hid, Hr.
Qed.


Lemma create_accounts_inv today req w resp w' :
  create_accounts today req w = (inr resp, w') →
  ∃ data a,
    req = json_request data ∧
    Account.decode (Account.new today) data = Some a ∧
    create_accounts today (json_request data) w = (inr resp, w').
Proof.
  intros H.
  destruct (decide (content_type req = Some "application/json")) as [Hct|Hct].
  - destruct req as [ct [data|]]; cbn in Hct; subst ct.
    + fold (json_request data) in *.
      destruct (Account.decode (Account.new today) data) as [a|] eqn:D; [by eauto|].
      destruct (create_accounts_invalid today data w D) as [msg Hmsg]. congruence.
    + unfold create_accounts, mbind, M_bind in H.
      rewrite check_content_type_pass in H by done. discriminate H.
  - destruct (gate_rejects today req w Hct) as (Hc & _). congruence.
Qed.

(** ** Create *)

(** Assigning the identifier changes no other field. *)
Lemma with_id_fields a i k :
  k ≠ "id" →
  field (Account.serialize
           (Account.mk i (Account.name a) (Account.email a) (Account.address a)
                       (Account.phone_number a) (Account.date_joined a))) k =
  field (Account.serialize a) k.
Proof.
  intros Hk. unfold Account.serialize, field. by rewrite !(lookup_insert_ne _ "id").
Qed.

Lemma text_fields_not_id k : k ∈ text_fields → k ≠ "id".
Proof.
  unfold text_fields. rewrite !elem_of_cons, elem_of_nil.
  by intros [->|[->|[->|[->|[]]]]].
Qed.

(** C10. Whenever create answers with a response, its status is 201 and
    its only header is [Location], whose value is the constant ["/"],
    whatever identifier the new Account was given. *)
Theorem create_accounts_location today req w resp w' :
  create_accounts today req w = (inr resp, w') →
  resp_status resp = status.HTTP_201_CREATED ∧
  resp_headers resp = {["Location" := "/"]} ∧
  resp_headers resp !! "Location" = Some "/".
Proof.
  intros (data & a & -> & D & H)%create_accounts_inv.
  rewrite (create_accounts_run _ _ _ _ D) in H.
  injection H as <- _. done.
Qed.

Lemma create_accounts_location_witness :
  ∃ resp w',
    create_accounts leap_day (json_request alice) (fresh Table.empty) = (inr resp, w') ∧
    field (default JNull (json_of (resp_body resp))) "id" = Some (JNum 1) ∧
    resp_headers resp !! "Location" = Some "/".
Proof.
  eexists _, _. split; [vm_compute; reflexivity|]. split; [reflexivity|].
  eapply (create_accounts_location leap_day (json_request alice) (fresh Table.empty)).
  vm_compute; reflexivity.
Defined.

Lemma table_wf_fresh_id tb : table_wf tb → Table.rows tb !! Table.next_id tb = None.
Proof.
  intros Hwf. destruct (Table.rows tb !! Table.next_id tb) as [r|] eqn:E; [|done].
  apply Hwf in E. lia.
Qed.

(** C7. A valid create request is answered 201; the JSON body is the
    Account as persisted, carrying the identifier it was just assigned; a
    [Location] header is set; and the table gains exactly one row, the one
    of that identifier, which was free before. *)
Theorem create_accounts_created today P w :
  valid_payload P = true →
  table_wf (db w) →
  ∃ i a w',
    create_accounts today (json_request P) w =
      (inr (make_response (jsonify (Account.serialize a)) status.HTTP_201_CREATED
                          {["Location" := "/"]}), w') ∧
    Account.id a = Some i ∧
    field (Account.serialize a) "id" = Some (JNum i) ∧
    (∀ k, k ∈ text_fields → field (Account.serialize a) k = field P k) ∧
    Table.rows (db w) !! i = None ∧
    Table.rows (db w') = <[i := Account.to_row a]> (Table.rows (db w)) ∧
    Account.lookup (db w') (JNum i) = Some a ∧
    size (Table.rows (db w')) = S (size (Table.rows (db w))).
Proof.
  intros Hv Hwf.
  destruct (decode_valid (Account.new today) P Hv) as [a D].
  pose proof (create_accounts_run today P a w D) as Hrun. cbn zeta in Hrun.
  pose proof (table_wf_fresh_id _ Hwf) as Hfresh.
  eexists _, _, _. split; [exact Hrun|]. cbn.
  repeat split; try done.
  - intros k Hk. rewrite <- (decode_text_fields _ _ _ D k Hk).
    by apply with_id_fields, text_fields_not_id.
  - by rewrite lookup_insert_eq.
  - by apply map_size_insert_None.
Qed.

Lemma create_accounts_created_witness :
  ∃ i a w',
    create_accounts leap_day (json_request alice) (fresh Table.empty) =
      (inr (make_response (jsonify (Account.serialize a)) 201 {["Location" := "/"]}), w') ∧
    Account.id a = Some i ∧
    size (Table.rows (db w')) = 1%nat.
Proof.
  destruct (create_accounts_created leap_day alice (fresh Table.empty))
    as (i & a & w' & H & Hi & _ & _ & _ & _ & _ & Hs).
  - reflexivity.
  - apply map_Forall_empty.
  - exists i, a, w'. done.
Defined.

(** ** Round trip *)

(** C1. Create a valid payload [P], then read the identifier create
    assigned: the record read back carries that identifier, agrees with
    [P] on every text field, and its [date_joined] is the one of [P], or
    the default (today's date) when [P] has none. *)
Theorem create_then_read today P w :
  valid_payload P = true →
  ∃ i created w1 record w2,
    create_accounts today (json_request P) w = (inr created, w1) ∧
    resp_status created = status.HTTP_201_CREATED ∧
    json_of (resp_body created) ≫= (λ j, field j "id") = Some (JNum i) ∧
    read_account (json_request (JObj {["id" := JNum i]})) w1 =
      (inr (make_response (jsonify record) status.HTTP_200_OK ∅), w2) ∧
    field record "id" = Some (JNum i) ∧
    (∀ k, k ∈ text_fields → field record k = field P k) ∧
    field record "date_joined" =
      Some (default (JStr (date.isoformat today)) (field P "date_joined")).
Proof.
  intros Hv.
  destruct (decode_valid (Account.new today) P Hv) as [a D].
  pose proof (create_accounts_run today P a w D) as Hrun. cbn zeta in Hrun.
  eexists (Table.next_id (db w)), _, _, _, _.
  split; [exact Hrun|]. split; [done|]. split; [done|].
  split.
  { rewrite (read_account_run _ (JNum (Table.next_id (db w)))) by done.
    cbn. rewrite lookup_insert_eq. cbn. reflexivity. }
  split; [done|]. split.
  - intros k Hk. rewrite <- (decode_text_fields _ _ _ D k Hk).
    apply (with_id_fields a), text_fields_not_id, Hk.
  - etrans; [|exact (decode_date_joined _ _ _ D)]. by apply (with_id_fields a).
Qed.

Lemma create_then_read_witness :
  valid_payload alice = true ∧
  ∃ i created w1 record w2,
    create_accounts leap_day (json_request alice) (fresh Table.empty) = (inr created, w1) ∧
    read_account (json_request (JObj {["id" := JNum i]})) w1 =
      (inr (make_response (jsonify record) 200 ∅), w2) ∧
    field record "name" = Some (JStr "Alice") ∧
    field record "date_joined" = Some (JStr "2024-02-29").
Proof.
  split; [reflexivity|].
  destruct (create_then_read leap_day alice (fresh Table.empty))
    as (i & created & w1 & record & w2 & Hc & _ & _ & Hr & _ & Ht & Hd); [reflexivity|].
  exists i, created, w1, record, w2. repeat split; [exact Hc|exact Hr| |exact Hd].
  rewrite Ht; [reflexivity|]. unfold text_fields. apply list_elem_of_here.
Defined.

(** ** Not found *)

(** C2. For an identifier that matches no stored Account, read-one and
    update answer 404 and delete answers 204. *)
Theorem not_found_consistency m v w :
  m !! "id" = Some v →
  Account.lookup (db w) v = None →
  let req := json_request (JObj m) in
  status_code (read_account req w).1 = status.HTTP_404_NOT_FOUND ∧
  status_code (update_account req w).1 = status.HTTP_404_NOT_FOUND ∧
  status_code (delete_account req w).1 = status.HTTP_204_NO_CONTENT.
Proof.
  intros Hid Hnone req. subst req.
  rewrite (read_account_run m v w Hid), (update_account_run m v w Hid),
    (delete_account_run m v w Hid), Hnone.
  done.
Qed.

Lemma not_found_consistency_witness :
  let req := json_request (JObj {["id" := JNum (-1)]}) in
  Account.lookup Table.empty (JNum (-1)) = None ∧
  status_code (read_account req (fresh Table.empty)).1 = 404 ∧
  status_code (update_account req (fresh Table.empty)).1 = 404 ∧
  status_code (delete_account req (fresh Table.empty)).1 = 204.
Proof.
  intros req. split; [reflexivity|].
  apply (not_found_consistency {["id" := JNum (-1)]} (JNum (-1)) (fresh Table.empty));
    reflexivity.
Defined.

(** ** Delete *)

Lemma lookup_delete_None tb v a :
  Account.lookup tb v = Some a →
  Account.lookup (Table.mk (base.delete (default 0 (Account.id a)) (Table.rows tb))
                           (Table.next_id tb)) v = None.
Proof.
  intros (i & r & -> & _ & ->)%lookup_Some. cbn. by rewrite lookup_delete_eq.
Qed.

(** C5. Deleting the same identifier twice answers 204 with an empty body
    both times; after the first call, and after the second, no Account has
    that identifier; the second call changes nothing in the table. *)
Theorem delete_account_idempotent m v w :
  m !! "id" = Some v →
  let req := json_request (JObj m) in
  let gone := make_response (text "") status.HTTP_204_NO_CONTENT ∅ in
  let w1 := (delete_account req w).2 in
  let w2 := (delete_account req w1).2 in
  (delete_account req w).1 = inr gone ∧
  (delete_account req w1).1 = inr gone ∧
  Account.lookup (db w1) v = None ∧
  Account.lookup (db w2) v = None ∧
  db w2 = db w1.
Proof.
  intros Hid req gone w1 w2.
  assert (H1 : Account.lookup (db w1) v = None).
  { subst w1 req. rewrite (delete_account_run m v w Hid). cbn.
    destruct (Account.lookup (db w) v) as [a|] eqn:E; cbn; [|done].
    by apply lookup_delete_None. }
  assert (H2 : db w2 = db w1).
  { subst w2 req. rewrite (delete_account_run m v w1 Hid), H1. done. }
  repeat split.
  - subst req. by rewrite (delete_account_run m v w Hid).
  - subst req. by rewrite (delete_account_run m v w1 Hid).
  - done.
  - by rewrite H2.
  - done.
Qed.

Lemma delete_account_idempotent_witness :
  let req := json_request (JObj {["id" := JNum 1]}) in
  let w1 := (delete_account req one_account).2 in
  Account.lookup (db one_account) (JNum 1) ≠ None ∧
  (delete_account req one_account).1 = inr (make_response (text "") 204 ∅) ∧
  (delete_account req w1).1 = inr (make_response (text "") 204 ∅) ∧
  Account.lookup (db w1) (JNum 1) = None.
Proof.
  intros req w1. split; [discriminate|].
  destruct (delete_account_idempotent {["id" := JNum 1]} (JNum 1) one_account)
    as (H1 & H2 & H3 & _); [reflexivity|].
  done.
Defined.

(** ** Update *)




(** An update whose body has no [date_joined] keeps the stored date. *)
Example update_account_keeps_date :
  let carol := JObj (<["id" := JNum 1]> (<["name" := JStr "Carol"]>
                    (<["email" := JStr "c@x.com"]> (<["address" := JStr "3 Main St"]>
                    {["phone_number" := JStr "555-3333"]})))) in
  (update_account (json_request carol) one_account).1 =
  inr (make_response
         (jsonify (Account.serialize
            (Account.mk (Some 1) "Carol" "c@x.com" "3 Main St" "555-3333" leap_day)))
         200 ∅).
Proof. vm_compute. reflexivity. Qed.

(** ** Reads leave the table alone *)

Lemma read_account_db req w : db (read_account req w).2 = db w.
Proof.
  destruct (decide (content_type req = Some "application/json")) as [Hct|Hct].
  - unfold read_account, mbind, M_bind.
    rewrite check_content_type_pass by done.
    destruct req as [ct [[| | | | |m]|]]; try done. cbn.
    destruct (m !! "id") as [v|]; [|done]. cbn.
    by destruct (Account.lookup (db w) v).
  - destruct (gate_rejects leap_day req w Hct) as (_ & -> & _). done.
Qed.

(** C9. Read-one, list-all and health leave the Account table as it was,
    on every request and every table; so does read-one when it answers
    404. *)
Theorem reads_leave_storage req w :
  db (read_account req w).2 = db w ∧
  db (read_all_accounts w).2 = db w ∧
  db (health w).2 = db w ∧
  (status_code (read_account req w).1 = status.HTTP_404_NOT_FOUND →
   db (read_account req w).2 = db w).
Proof. pose proof (read_account_db req w). done. Qed.

(** ** Validation *)

(** A body without ["id"] on read-one: the subscript raises [KeyError],
    which no handler catches. *)
Example read_account_missing_id :
  read_account (json_request (JObj ∅)) (fresh Table.empty) =
  (inl (Raised (KeyError "id")), fresh Table.empty) ∧
  status_code (read_account (json_request (JObj ∅)) (fresh Table.empty)).1 = 500.
Proof. split; reflexivity. Qed.

(** An update naming a stored Account with a body that lacks required
    fields: 400, but after the lookup. *)
Example update_account_bad_body :
  let req := json_request (JObj (<["id" := JNum 1]> {["name" := JStr "not enough data"]})) in
  status_code (update_account req one_account).1 = 400 ∧
  calls (update_account req one_account).2 = CallFind :: calls one_account ∧
  db (update_account req one_account).2 = db one_account.
Proof. repeat split; reflexivity. Qed.

(** C3, as stated, fails: an update whose body lacks the required fields
    and names no stored Account is answered 404, not 400, and the lookup,
    a persistence call, has been made by then. *)
Lemma validation_counterexample :
  let data := JObj {["id" := JNum 7]} in
  let req := json_request data in
  valid_payload data = false ∧
  status_code (update_account req (fresh Table.empty)).1 = status.HTTP_404_NOT_FOUND ∧
  status_code (update_account req (fresh Table.empty)).1 ≠ status.HTTP_400_BAD_REQUEST ∧
  calls (update_account req (fresh Table.empty)).2 = [CallFind].
Proof. repeat split; try reflexivity. discriminate. Qed.

Lemma no_json_body today req w :
  content_type req = Some "application/json" →
  body req = None →
  let bad := inl (Aborted 400 "Failed to decode JSON object") in
  create_accounts today req w = (bad, w) ∧
  read_account req w = (bad, w) ∧
  update_account req w = (bad, w) ∧
  delete_account req w = (bad, w).
Proof.
  intros Hct Hb bad.
  unfold create_accounts, read_account, update_account, delete_account, mbind, M_bind.
  rewrite !check_content_type_pass by done.
  unfold get_json. rewrite Hb. done.
Qed.

(** C3, amended.  On a request of content type [application/json]:
    create answers 400 with an error message whenever the body is not
    JSON or is not a valid Account payload, and has made no persistence
    call (the world is as it was); read-one, update and delete answer 400
    with an error message, before any persistence call, when the body is
    not JSON; update, once the lookup has found the Account, answers 400
    with an error message for a body that is not a valid payload, and the
    table is as it was. *)
Theorem validation_errors today req w :
  content_type req = Some "application/json" →
  (from_option valid_payload false (body req) = false →
   status_code (create_accounts today req w).1 = status.HTTP_400_BAD_REQUEST ∧
   is_Some (error_message (create_accounts today req w).1) ∧
   (create_accounts today req w).2 = w) ∧
  (body req = None →
   ∀ handler, handler ∈ [read_account; update_account; delete_account] →
     status_code (handler req w).1 = status.HTTP_400_BAD_REQUEST ∧
     is_Some (error_message (handler req w).1) ∧
     (handler req w).2 = w) ∧
  (∀ data i,
     body req = Some data →
     field data "id" = Some (JNum i) →
     is_Some (Table.rows (db w) !! i) →
     valid_payload data = false →
     status_code (update_account req w).1 = status.HTTP_400_BAD_REQUEST ∧
     is_Some (error_message (update_account req w).1) ∧
     db (update_account req w).2 = db w).
Proof.
  intros Hct. split; [|split].
  - intros Hbad. destruct (body req) as [data|] eqn:Hb.
    + destruct req as [ct b]. cbn in Hct, Hb, Hbad. subst ct b.
      fold (json_request data).
      destruct (create_accounts_invalid today data w) as [msg ->];
        [by apply decode_invalid|].
      cbn. eauto.
    + destruct (no_json_body today req w Hct Hb) as (-> & _). cbn. eauto.
  - intros Hb handler Hh.
    destruct (no_json_body today req w Hct Hb) as (_ & Hr & Hu & Hd).
    rewrite !elem_of_cons, elem_of_nil in Hh.
    destruct Hh as [->|[->|[->|[]]]]; rewrite ?Hr, ?Hu, ?Hd; cbn; eauto.
  - intros data i Hb Hid [r Hr] Hbad.
    destruct req as [ct b]. cbn in Hct, Hb. subst ct b.
    fold (json_request data).
    destruct data as [| | | | |m]; try discriminate. cbn in Hid.
    rewrite (update_account_run m (JNum i) w Hid). cbn. rewrite Hr. cbn.
    rewrite (decode_invalid _ _ Hbad). cbn. eauto.
Qed.

Lemma validation_errors_witness :
  let req := json_request (JObj {["name" := JStr "not enough data"]}) in
  content_type req = Some "application/json" ∧
  status_code (create_accounts leap_day req (fresh Table.empty)).1 = 400 ∧
  (create_accounts leap_day req (fresh Table.empty)).2 = fresh Table.empty.
Proof.
  intros req. split; [reflexivity|].
  destruct (validation_errors leap_day req (fresh Table.empty)) as (H & _); [reflexivity|].
  destruct H as (H1 & _ & H2); [reflexivity|]. split; [exact H1|exact H2].
Defined.

(** ** List all *)

Lemma read_all_accounts_run w :
  read_all_accounts w =
  (inr (make_response
          (jsonify (JArr (Account.serialize <$>
                            (uncurry Account.of_row <$> map_to_list (Table.rows (db w))))))
          200 ∅),
   mkWorld (db w) (CallAll :: calls w)).
Proof. reflexivity. Qed.

Lemma session_inv_start : session_inv (mkSession (fresh Table.empty) [] 0%nat).
Proof.
  split; [apply map_Forall_empty|]. split; [done|].
  intros i [r Hr]. cbn in Hr. by rewrite lookup_empty in Hr.
Qed.

Lemma created_id_serialize i n e a p d st h :
  created_id (inr (make_response (jsonify (Account.serialize (Account.mk (Some i) n e a p d))) st h)) =
  Some i.
Proof. reflexivity. Qed.

Lemma step_create_inv today s P : session_inv s → session_inv (step today s (Create P)).
Proof.
  intros (Hwf & Hsize & Hdom). unfold step.
  destruct (Account.decode (Account.new today) P) as [a|] eqn:D.
  - rewrite (create_accounts_run today P a (world s) D).
    cbn -[created_id]. rewrite created_id_serialize.
    pose proof (table_wf_fresh_id _ Hwf) as Hfresh.
    split; [|split]; cbn.
    + apply map_Forall_insert_2; [cbn; lia|].
      intros j r Hj. apply Hwf in Hj. cbn in Hj |- *. lia.
    + rewrite map_size_insert_None by done. lia.
    + intros j. destruct (decide (Table.next_id (db (world s)) = j)) as [<-|Hne].
      * intros _. apply list_elem_of_here.
      * rewrite lookup_insert_ne by done. intros Hj. apply list_elem_of_further, Hdom, Hj.
  - destruct (create_accounts_invalid today P (world s) D) as [msg ->]. cbn.
    by destruct s.
Qed.

Lemma step_delete_inv today s i : session_inv s → session_inv (step today s (Delete i)).
Proof.
  intros (Hwf & Hsize & Hdom). unfold step.
  rewrite (delete_account_run {["id" := JNum i]} (JNum i)) by apply lookup_singleton_eq.
  cbn. destruct (Table.rows (db (world s)) !! i) as [r|] eqn:Hr; cbn.
  - split; [|split]; cbn.
    + by apply map_Forall_delete.
    + rewrite map_size_delete_Some by eauto.
      assert (size (Table.rows (db (world s))) ≠ 0%nat); [|lia].
      intros E%map_size_empty_inv. by rewrite E, lookup_empty in Hr.
    + intros j [r' Hj]. apply Hdom. apply lookup_delete_Some in Hj as [_ Hj]. eauto.
  - done.
Qed.

Lemma run_inv today ops s : session_inv s → session_inv (foldl (step today) s ops).
Proof.
  revert s. induction ops as [|[P|i] ops IH]; intros s Hs; cbn [foldl]; [done|..].
  - by apply IH, step_create_inv.
  - by apply IH, step_delete_inv.
Qed.

(** Every stored Account is listed, and nothing else is. *)
Lemma listed_iff w j :
  j ∈ Account.serialize <$> (uncurry Account.of_row <$> map_to_list (Table.rows (db w))) ↔
  ∃ i r, Table.rows (db w) !! i = Some r ∧ j = Account.serialize (Account.of_row i r).
Proof.
  rewrite list_elem_of_fmap. split.
  - intros (a & -> & ([i r] & -> & Hir%elem_of_map_to_list)%list_elem_of_fmap). eauto.
  - intros (i & r & Hr & ->). eexists. split; [done|].
    apply list_elem_of_fmap. exists (i, r). split; [done|]. by apply elem_of_map_to_list.
Qed.

(** C8. List-all answers 200 with the array of the stored Accounts, each
    serialized in full: one element per row, every row listed, nothing
    else.  On the empty table the array is empty.  After any session of
    creates and deletes from the empty table, with N Accounts created and
    M of them deleted, M ≤ N and the array has exactly N - M elements, each
    carrying the identifier of a created Account. *)
Theorem list_all_complete today ops w :
  (∃ arr,
     read_all_accounts w =
       (inr (make_response (jsonify (JArr arr)) status.HTTP_200_OK ∅),
        mkWorld (db w) (CallAll :: calls w)) ∧
     length arr = size (Table.rows (db w)) ∧
     ∀ j, j ∈ arr ↔
          ∃ i r, Table.rows (db w) !! i = Some r ∧
                 j = Account.serialize (Account.of_row i r)) ∧
  (read_all_accounts (fresh Table.empty)).1 =
    inr (make_response (jsonify (JArr [])) status.HTTP_200_OK ∅) ∧
  (let s := run today ops in
   ∃ arr,
     (read_all_accounts (world s)).1 =
       inr (make_response (jsonify (JArr arr)) status.HTTP_200_OK ∅) ∧
     (deleted s ≤ length (created s))%nat ∧
     length arr = (length (created s) - deleted s)%nat ∧
     ∀ j, j ∈ arr → ∃ i, i ∈ created s ∧ field j "id" = Some (JNum i)).
Proof.
  split; [|split].
  - eexists. split; [apply read_all_accounts_run|].
    split; [by rewrite !length_fmap, length_map_to_list|]. apply listed_iff.
  - reflexivity.
  - intros s.
    destruct (run_inv today ops _ session_inv_start) as (_ & Hsize & Hdom).
    fold (run today ops) in Hsize, Hdom. fold s in Hsize, Hdom.
    eexists. rewrite read_all_accounts_run. split; [done|].
    split; [lia|]. split.
    + rewrite !length_fmap, length_map_to_list. lia.
    + intros j (i & r & Hr & ->)%listed_iff. exists i. split; [eauto|reflexivity].
Qed.

(** The scenario of the specification, as a session: two creates, the
    first Account deleted, and a delete that finds nothing. *)
Example session_example :
  let s := run leap_day [Create alice; Create bob; Delete 1; Delete 5] in
  created s = [2; 1] ∧ deleted s = 1%nat ∧
  (read_all_accounts (world s)).1 =
    inr (make_response
           (jsonify (JArr [Account.serialize
              (Account.mk (Some 2) "Bob" "b@x.com" "2 Main St" "555-2222"
                          (date.mk 2023 1 31))]))
           200 ∅) ∧
  status_code (read_account (json_request (JObj {["id" := JNum 1]})) (world s)).1 = 404.
Proof. vm_compute. repeat split; reflexivity. Qed.

(** * Further properties of the routes *)

(** ** [check_content_type] *)

(** The gate lets a request through exactly when its Content-Type header
    is present, non-empty and equal to the media type asked for; in every
    other case it aborts with 415 and the message naming the media type.
    It never touches the world.  An empty media type can therefore never
    be satisfied. *)
Theorem check_content_type_spec req media_type w :
  (check_content_type req media_type w = (inr (), w) ↔
   content_type req = Some media_type ∧ media_type ≠ "") ∧
  (check_content_type req media_type w =
     (inl (Aborted status.HTTP_415_UNSUPPORTED_MEDIA_TYPE
                   ("Content-Type must be " +:+ media_type)), w) ↔
   ¬ (content_type req = Some media_type ∧ media_type ≠ "")).
Proof.
  unfold check_content_type, truthy.
  destruct (content_type req) as [ct|]; cbn.
  - destruct (decide (ct = "")) as [->|Hne].
    + rewrite bool_decide_eq_false_2 by (by intros ?). cbn.
      split; split; try done; [naive_solver|]. intros _ [[= <-] ?]. done.
    + rewrite (bool_decide_eq_true_2 _ Hne). cbn.
      destruct (decide (Some ct = Some media_type)) as [E|E].
      * rewrite (bool_decide_eq_true_2 _ E). injection E as <-.
        split; split; try done. intros H. by destruct H.
      * rewrite (bool_decide_eq_false_2 _ E).
        split; split; try done; naive_solver.
  - split; split; try done; naive_solver.
Qed.

(** ** The identifier of a request *)

(** The shapes a request can have, as read-one, update and delete look at
    it: rejected by the gate; no JSON body; a JSON body that is not an
    object; an object without ["id"]; an object with it. *)
Lemma request_cases req :
  content_type req ≠ Some "application/json" ∨
  (content_type req = Some "application/json" ∧ body req = None) ∨
  (∃ j, req = json_request j ∧ ∀ m, j ≠ JObj m) ∨
  (∃ m, req = json_request (JObj m) ∧ m !! "id" = None) ∨
  (∃ m v, req = json_request (JObj m) ∧ m !! "id" = Some v).
Proof.
  destruct (decide (content_type req = Some "application/json")) as [Hct|Hct]; [|by left].
  right. destruct req as [ct [j|]]; cbn in Hct; subst ct; [|by left].
  right. fold (json_request j).
  destruct j as [| | | | |m]; try (left; eexists; split; [done|]; by intros m).
  right. destruct (m !! "id") as [v|] eqn:E; [right|left]; eauto.
Qed.

Lemma getitem_fail j w :
  (∀ m, j ≠ JObj m) → getitem j "id" w = (inl (Raised TypeError), w).
Proof. intros H. destruct j; try done. by destruct (H m). Qed.

Lemma no_id_raises handler j w :
  handler ∈ [read_account; update_account; delete_account] →
  (∀ m, j = JObj m → m !! "id" = None) →
  handler (json_request j) w =
    (inl (Raised (match j with JObj _ => KeyError "id" | _ => TypeError end)), w).
Proof.
  intros Hh Hj. rewrite !elem_of_cons, elem_of_nil in Hh.
  assert (getitem j "id" w =
          (inl (Raised (match j with JObj _ => KeyError "id" | _ => TypeError end)), w))
    as Hget.
  { destruct j as [| | | | |m]; try done. cbn. by rewrite (Hj m eq_refl). }
  destruct Hh as [->|[->|[->|[]]]];
    unfold read_account, update_account, delete_account, mbind, M_bind;
    rewrite check_content_type_json; cbn [get_json json_request body mret M_ret];
    by rewrite Hget.
Qed.

(** Read-one, update and delete take the identifier with
    [request.get_json()["id"]] and guard it with nothing: on an object
    without ["id"] the [KeyError] escapes, on a JSON body that is not an
    object (null, a number, a string, a list) the [TypeError] does, and in
    both cases the handler stops before any persistence call. *)
Theorem missing_id_escapes handler j w :
  handler ∈ [read_account; update_account; delete_account] →
  (∀ m, j = JObj m → m !! "id" = None) →
  handler (json_request j) w =
    (inl (Raised (match j with JObj _ => KeyError "id" | _ => TypeError end)), w).
Proof. apply no_id_raises. Qed.

Lemma missing_id_escapes_witness :
  read_account (json_request (JObj {["name" := JStr "Alice"]})) one_account =
    (inl (Raised (KeyError "id")), one_account) ∧
  delete_account (json_request (JArr [JNum 1])) one_account =
    (inl (Raised TypeError), one_account).
Proof.
  split.
  - apply (missing_id_escapes read_account (JObj {["name" := JStr "Alice"]}) one_account).
    + apply list_elem_of_here.
    + intros m [= <-]. reflexivity.
  - apply (missing_id_escapes delete_account (JArr [JNum 1]) one_account).
    + do 2 apply list_elem_of_further. apply list_elem_of_here.
    + intros m [=].
Defined.

(** ** What each handler can answer *)

Lemma json_request_inj j j' : json_request j = json_request j' → j = j'.
Proof. by intros [= ->]. Qed.

Lemma read_account_inv req w resp w' :
  read_account req w = (inr resp, w') →
  ∃ m i r,
    req = json_request (JObj m) ∧
    m !! "id" = Some (JNum i) ∧
    Table.rows (db w) !! i = Some r ∧
    resp = make_response (jsonify (Account.serialize (Account.of_row i r))) 200 ∅ ∧
    w' = mkWorld (db w) (CallFind :: calls w).
Proof.
  intros H.
  destruct (request_cases req) as [Hct|[[Hct Hb]|[(j & -> & Hj)|[(m & -> & Hm)|(m & v & -> & Hm)]]]].
  - destruct (gate_rejects leap_day req w Hct) as (_ & Hr & _). congruence.
  - destruct (no_json_body leap_day req w Hct Hb) as (_ & Hr & _). congruence.
  - rewrite (no_id_raises read_account j w) in H; [done|apply list_elem_of_here|].
    intros m ->. by destruct (Hj m).
  - rewrite (no_id_raises read_account (JObj m) w) in H; [done|apply list_elem_of_here|].
    by intros m' [= <-].
  - rewrite (read_account_run m v w Hm) in H.
    destruct (Account.lookup (db w) v) as [a|] eqn:E; [|done].
    apply lookup_Some in E as (i & r & -> & Hr & ->).
    injection H as <- <-. by exists m, i, r.
Qed.

(** Read-one answers with a response only on a JSON object whose ["id"]
    is the identifier of a stored Account; the response is then 200, its
    body is that Account serialized, and the ["id"] of the body is the
    identifier asked for.  One lookup was issued and the table is as it
    was. *)
Theorem read_account_found req w resp w' :
  read_account req w = (inr resp, w') →
  ∃ m i r,
    req = json_request (JObj m) ∧
    m !! "id" = Some (JNum i) ∧
    Table.rows (db w) !! i = Some r ∧
    resp = make_response (jsonify (Account.serialize (Account.of_row i r)))
                         status.HTTP_200_OK ∅ ∧
    (json_of (resp_body resp) ≫= λ j, field j "id") = Some (JNum i) ∧
    w' = mkWorld (db w) (CallFind :: calls w).
Proof.
  intros (m & i & r & -> & Hm & Hr & -> & ->)%read_account_inv.
  exists m, i, r. done.
Qed.

Lemma read_account_found_witness :
  ∃ m i r,
    json_request (JObj {["id" := JNum 1]}) = json_request (JObj m) ∧
    m !! "id" = Some (JNum i) ∧
    Table.rows (db one_account) !! i = Some r ∧
    Table.name r = "Alice".
Proof.
  destruct (read_account_found (json_request (JObj {["id" := JNum 1]})) one_account
              (make_response (jsonify (Account.serialize
                 (Account.mk (Some 1) "Alice" "a@x.com" "1 Main St" "555-1111" leap_day)))
                 200 ∅)
              (mkWorld (db one_account) (CallFind :: calls one_account)))
    as (m & i & r & Hreq & Hm & Hr & _); [reflexivity|].
  exists m, i, r. repeat split; [exact Hreq|exact Hm|exact Hr|].
  apply json_request_inj in Hreq. injection Hreq as <-.
  rewrite lookup_singleton_eq in Hm. injection Hm as <-.
  vm_compute in Hr. by injection Hr as <-.
Defined.

(** Delete answers 204 exactly on the requests that carry an ["id"] in a
    JSON object sent as [application/json], whether or not that identifier
    is stored; its response has an empty text for a body, never a JSON
    document; and it never answers 404. *)
Theorem delete_account_answers req w :
  ((delete_account req w).1 = inr (make_response (text "") status.HTTP_204_NO_CONTENT ∅) ↔
   ∃ m v, req = json_request (JObj m) ∧ m !! "id" = Some v) ∧
  (∀ resp, (delete_account req w).1 = inr resp →
     resp = make_response (text "") status.HTTP_204_NO_CONTENT ∅ ∧
     json_of (resp_body resp) = None) ∧
  status_code (delete_account req w).1 ≠ status.HTTP_404_NOT_FOUND.
Proof.
  assert (Hshape : ∀ r : failure + Response,
            (∀ m v, req = json_request (JObj m) → m !! "id" = Some v → False) →
            (∀ resp, r ≠ inr resp) →
            status_code r ≠ 404 →
            (r = inr (make_response (text "") 204 ∅) ↔
             ∃ m v, req = json_request (JObj m) ∧ m !! "id" = Some v) ∧
            (∀ resp, r = inr resp →
               resp = make_response (text "") 204 ∅ ∧ json_of (resp_body resp) = None) ∧
            status_code r ≠ 404).
  { intros r Hno Hr Hs. split; [|split; [|done]].
    - split; [intros H; by destruct (Hr _ H)|]. intros (m & v & Hreq & Hm).
      destruct (Hno m v Hreq Hm).
    - intros resp H. by destruct (Hr _ H). }
  destruct (request_cases req) as [Hct|[[Hct Hb]|[(j & -> & Hj)|[(m & -> & Hm)|(m & v & -> & Hm)]]]].
  - destruct (gate_rejects leap_day req w Hct) as (_ & _ & _ & ->).
    apply Hshape; [|done..]. intros m v -> _. by destruct Hct.
  - destruct (no_json_body leap_day req w Hct Hb) as (_ & _ & _ & ->).
    apply Hshape; [|done..]. by intros m v -> _.
  - rewrite (no_id_raises delete_account j w);
      [|do 2 apply list_elem_of_further; apply list_elem_of_here
       |intros m ->; by destruct (Hj m)].
    apply Hshape; [|done|by destruct j].
    intros m v [= ->]%json_request_inj _. by destruct (Hj m).
  - rewrite (no_id_raises delete_account (JObj m) w);
      [|do 2 apply list_elem_of_further; apply list_elem_of_here
       |by intros m' [= <-]].
    apply Hshape; [|done..].
    intros m' v [= <-]%json_request_inj Hv. congruence.
  - rewrite (delete_account_run m v w Hm). cbn. split; [|split; [|done]].
    + split; [by eauto|done].
    + by intros resp [= <-].
Qed.

(** ** Every way a request can go *)

Lemma create_accounts_cases today req w :
  (∃ e, create_accounts today req w = (inl e, w)) ∨
  (∃ data a,
     req = json_request data ∧
     Account.decode (Account.new today) data = Some a ∧
     let i := Table.next_id (db w) in
     let a' := Account.mk (Some i) (Account.name a) (Account.email a) (Account.address a)
                          (Account.phone_number a) (Account.date_joined a) in
     create_accounts today req w =
     (inr (make_response (jsonify (Account.serialize a')) 201 {["Location" := "/"]}),
      mkWorld (Table.mk (<[i := Account.to_row a']> (Table.rows (db w))) (i + 1))
              (CallCreate :: calls w))).
Proof.
  destruct (decide (content_type req = Some "application/json")) as [Hct|Hct].
  - destruct (body req) as [data|] eqn:Hb.
    + destruct req as [ct b]. cbn in Hct, Hb. subst ct b. fold (json_request data).
      destruct (Account.decode (Account.new today) data) as [a|] eqn:D.
      * right. exists data, a. split; [done|]. split; [done|].
        by apply create_accounts_run.
      * left. destruct (create_accounts_invalid today data w D) as [msg ->]. eauto.
    + left. destruct (no_json_body today req w Hct Hb) as (-> & _). eauto.
  - left. destruct (gate_rejects today req w Hct) as (-> & _). eauto.
Qed.


Lemma update_account_cases req w :
  (∃ e, update_account req w = (inl e, w)) ∨
  (∃ e, update_account req w = (inl e, mkWorld (db w) (CallFind :: calls w))) ∨
  (∃ m i r a,
     req = json_request (JObj m) ∧ m !! "id" = Some (JNum i) ∧
     Table.rows (db w) !! i = Some r ∧
     Account.decode (Account.of_row i r) (JObj m) = Some a ∧
     update_account req w =
     (inr (make_response (jsonify (Account.serialize a)) 200 ∅),
      mkWorld (Table.mk (<[i := Account.to_row a]> (Table.rows (db w)))
                        (Table.next_id (db w)))
              (CallUpdate :: CallFind :: calls w))).
Proof.
  destruct (request_cases req) as [Hct|[[Hct Hb]|[(j & -> & Hj)|[(m & -> & Hm)|(m & v & -> & Hm)]]]].
  - left. destruct (gate_rejects leap_day req w Hct) as (_ & _ & -> & _). eauto.
  - left. destruct (no_json_body leap_day req w Hct Hb) as (_ & _ & -> & _). eauto.
  - left. rewrite (no_id_raises update_account j w);
      [eauto|apply list_elem_of_further, list_elem_of_here|intros m ->; by destruct (Hj m)].
  - left. rewrite (no_id_raises update_account (JObj m) w);
      [eauto|apply list_elem_of_further, list_elem_of_here|by intros m' [= <-]].
  - right. rewrite (update_account_run m v w Hm).
    destruct (Account.lookup (db w) v) as [stored|] eqn:E; [|left; eauto].
    apply lookup_Some in E as (i & r & -> & Hr & ->).
    destruct (Account.decode (Account.of_row i r) (JObj m)) as [a|] eqn:D; [|left; eauto].
    right. exists m, i, r, a. done.
Qed.

Lemma delete_account_cases req w :
  (∃ e, delete_account req w = (inl e, w)) ∨
  (∃ m v, req = json_request (JObj m) ∧ m !! "id" = Some v ∧
     Account.lookup (db w) v = None ∧
     delete_account req w =
     (inr (make_response (text "") 204 ∅), mkWorld (db w) (CallFind :: calls w))) ∨
  (∃ m i r, req = json_request (JObj m) ∧ m !! "id" = Some (JNum i) ∧
     Table.rows (db w) !! i = Some r ∧
     delete_account req w =
     (inr (make_response (text "") 204 ∅),
      mkWorld (Table.mk (base.delete i (Table.rows (db w))) (Table.next_id (db w)))
              (CallDelete :: CallFind :: calls w))).
Proof.
  destruct (request_cases req) as [Hct|[[Hct Hb]|[(j & -> & Hj)|[(m & -> & Hm)|(m & v & -> & Hm)]]]].
  - left. destruct (gate_rejects leap_day req w Hct) as (_ & _ & _ & ->). eauto.
  - left. destruct (no_json_body leap_day req w Hct Hb) as (_ & _ & _ & ->). eauto.
  - left. rewrite (no_id_raises delete_account j w);
      [eauto|do 2 apply list_elem_of_further; apply list_elem_of_here
       |intros m ->; by destruct (Hj m)].
  - left. rewrite (no_id_raises delete_account (JObj m) w);
      [eauto|do 2 apply list_elem_of_further; apply list_elem_of_here
       |by intros m' [= <-]].
  - right. rewrite (delete_account_run m v w Hm).
    destruct (Account.lookup (db w) v) as [a|] eqn:E.
    + right. apply lookup_Some in E as (i & r & -> & Hr & ->). exists m, i, r. done.
    + left. exists m, v. done.
Qed.

(** ** Failed requests *)



(** ** Invariants of the table *)

(** Every handler keeps the table well formed: no stored identifier at or
    above the counter. *)
Theorem handlers_keep_wf today req w :
  table_wf (db w) →
  table_wf (db (create_accounts today req w).2) ∧
  table_wf (db (read_all_accounts w).2) ∧
  table_wf (db (read_account req w).2) ∧
  table_wf (db (update_account req w).2) ∧
  table_wf (db (delete_account req w).2).
Proof.
  intros Hwf. split; [|split; [|split; [|split]]].
  - destruct (create_accounts_cases today req w) as [[e ->]|(data & a & _ & _ & Hr)];
      [done|]. cbn zeta in Hr. rewrite Hr. cbn.
    apply map_Forall_insert_2; [cbn; lia|].
    intros j r Hj. apply Hwf in Hj. cbn in Hj |- *. lia.
  - done.
  - by rewrite read_account_db.
  - destruct (update_account_cases req w)
      as [[e ->]|[[e ->]|(m & i & r & a & _ & _ & Hr & _ & ->)]]; [done..|]. cbn.
    apply map_Forall_insert_2; [exact (Hwf i r Hr)|done].
  - destruct (delete_account_cases req w)
      as [[e ->]|[(m & v & _ & _ & _ & ->)|(m & i & r & _ & _ & _ & ->)]]; [done..|]. cbn.
    by apply map_Forall_delete.
Qed.

Lemma handlers_keep_wf_witness :
  table_wf (db (create_accounts leap_day (json_request bob) one_account).2) ∧
  table_wf (db (delete_account (json_request bob) one_account).2).
Proof.
  assert (Hwf : table_wf (db one_account)).
  { intros i r. vm_compute. intros H.
    destruct i as [|[]|]; try discriminate H. reflexivity. }
  destruct (handlers_keep_wf leap_day (json_request bob) one_account Hwf)
    as (Hc & _ & _ & _ & Hd).
  split; [exact Hc|exact Hd].
Defined.

(** Update never adds or removes an Account and never moves the counter:
    on every request the stored identifiers after it are those before. *)
Theorem update_account_keeps_ids req w :
  dom (Table.rows (db (update_account req w).2)) = dom (Table.rows (db w)) ∧
  Table.next_id (db (update_account req w).2) = Table.next_id (db w) ∧
  ∀ j, (∀ m, req = json_request (JObj m) → m !! "id" ≠ Some (JNum j)) →
       Table.rows (db (update_account req w).2) !! j = Table.rows (db w) !! j.
Proof.
  destruct (update_account_cases req w)
    as [[e ->]|[[e ->]|(m & i & r & a & -> & Hm & Hr & _ & ->)]]; [done..|]. cbn.
  split; [|split; [done|]].
  - rewrite dom_insert_L. apply elem_of_dom_2 in Hr. set_solver.
  - intros j Hj. apply lookup_insert_ne. intros <-. by destruct (Hj m).
Qed.

(** Delete removes exactly the row of the identifier it was given, when
    there is one.  On every request the counter does not move and every
    row other than the one named in the body is as it was.  When the body
    names a stored identifier and the request is sent as
    [application/json], that row is gone afterwards and the table has
    exactly one row fewer.  On every other request (identifier not stored,
    or a request that never reaches the lookup) the rows are those of
    before. *)
Theorem delete_account_frame req w :
  Table.next_id (db (delete_account req w).2) = Table.next_id (db w) ∧
  (∀ j, (∀ m, req = json_request (JObj m) → m !! "id" ≠ Some (JNum j)) →
        Table.rows (db (delete_account req w).2) !! j = Table.rows (db w) !! j) ∧
  (∀ m i, req = json_request (JObj m) → m !! "id" = Some (JNum i) →
          is_Some (Table.rows (db w) !! i) →
          Table.rows (db (delete_account req w).2) = base.delete i (Table.rows (db w)) ∧
          Table.rows (db (delete_account req w).2) !! i = None ∧
          S (size (Table.rows (db (delete_account req w).2))) = size (Table.rows (db w))) ∧
  ((∀ m i, req = json_request (JObj m) → m !! "id" = Some (JNum i) →
           Table.rows (db w) !! i = None) →
   Table.rows (db (delete_account req w).2) = Table.rows (db w) ∧
   size (Table.rows (db (delete_account req w).2)) = size (Table.rows (db w))).
Proof.
  assert (Hrun : ∀ m i, req = json_request (JObj m) → m !! "id" = Some (JNum i) →
            db (delete_account req w).2 =
            match Table.rows (db w) !! i with
            | Some _ => Table.mk (base.delete i (Table.rows (db w))) (Table.next_id (db w))
            | None => db w
            end).
  { intros m i -> Hm. rewrite (delete_account_run m (JNum i) w Hm). cbn.
    by destruct (Table.rows (db w) !! i). }
  split; [|split; [|split]].
  - destruct (delete_account_cases req w)
      as [[e ->]|[(m & v & _ & _ & _ & ->)|(m & i & r & _ & _ & _ & ->)]]; done.
  - intros j Hj.
    destruct (delete_account_cases req w)
      as [[e ->]|[(m & v & _ & _ & _ & ->)|(m & i & r & -> & Hm & _ & ->)]]; [done..|].
    cbn. apply lookup_delete_ne. intros <-. by destruct (Hj m).
  - intros m i Hreq Hm [r Hr]. rewrite (Hrun m i Hreq Hm), Hr. cbn.
    split; [done|]. split; [apply lookup_delete_eq|].
    rewrite map_size_delete_Some by eauto.
    destruct (size (Table.rows (db w))) eqn:E; [|done].
    apply map_size_empty_inv in E. by rewrite E, lookup_empty in Hr.
  - intros Hno.
    destruct (delete_account_cases req w)
      as [[e ->]|[(m & v & _ & _ & _ & ->)|(m & i & r & Hreq & Hm & Hr & _)]]; [done..|].
    rewrite (Hno m i Hreq Hm) in Hr. discriminate Hr.
Qed.

Lemma delete_account_frame_witness :
  let stored := json_request (JObj {["id" := JNum 1]}) in
  let absent := json_request (JObj {["id" := JNum 5]}) in
  size (Table.rows (db one_account)) = 1%nat ∧
  S (size (Table.rows (db (delete_account stored one_account).2))) = 1%nat ∧
  Table.rows (db (delete_account absent one_account).2) = Table.rows (db one_account).
Proof.
  intros stored absent. split; [reflexivity|]. split.
  - destruct (delete_account_frame stored one_account) as (_ & _ & Hs & _).
    destruct (Hs {["id" := JNum 1]} 1) as (_ & _ & Hsize);
      [reflexivity|reflexivity|by eexists|].
    exact Hsize.
  - destruct (delete_account_frame absent one_account) as (_ & _ & _ & Hn).
    apply Hn. intros m i [= <-]%json_request_inj Hm.
    rewrite lookup_singleton_eq in Hm. injection Hm as <-. reflexivity.
Defined.

(** ** Persistence calls *)


(** ** How the operations compose *)

(** Whatever create answered, reading the identifier it announced right
    after returns the very same JSON body, with status 200. *)
Theorem read_after_create today req w created w1 :
  create_accounts today req w = (inr created, w1) →
  ∃ i,
    created_id (inr created) = Some i ∧
    (read_account (json_request (JObj {["id" := JNum i]})) w1).1 =
      inr (make_response (resp_body created) status.HTTP_200_OK ∅).
Proof.
  intros H.
  destruct (create_accounts_cases today req w) as [[e He]|(data & a & _ & _ & Hr)];
    [congruence|]. cbn zeta in Hr. rewrite Hr in H. injection H as <- <-.
  exists (Table.next_id (db w)). split; [apply created_id_serialize|].
  rewrite (read_account_run _ (JNum (Table.next_id (db w)))) by apply lookup_singleton_eq.
  cbn. by rewrite lookup_insert_eq.
Qed.

Lemma read_after_create_witness :
  ∃ created w1 i,
    create_accounts leap_day (json_request alice) (fresh Table.empty) = (inr created, w1) ∧
    created_id (inr created) = Some i ∧
    (read_account (json_request (JObj {["id" := JNum i]})) w1).1 =
      inr (make_response (resp_body created) 200 ∅).
Proof.
  destruct (create_accounts leap_day (json_request alice) (fresh Table.empty))
    as [[e|created] w1] eqn:H.
  - vm_compute in H. discriminate H.
  - destruct (read_after_create _ _ _ _ _ H) as (i & Hi & Hr).
    exists created, w1, i. split; [reflexivity|]. split; [exact Hi|exact Hr].
Defined.

(** After a delete that answered, the same identifier is not found any
    more: read-one and update sent with the same body answer 404. *)
Theorem not_found_after_delete req w resp w1 :
  delete_account req w = (inr resp, w1) →
  status_code (read_account req w1).1 = status.HTTP_404_NOT_FOUND ∧
  status_code (update_account req w1).1 = status.HTTP_404_NOT_FOUND.
Proof.
  intros H.
  assert (∃ m v, req = json_request (JObj m) ∧ m !! "id" = Some v ∧
                 Account.lookup (db w1) v = None) as (m & v & -> & Hm & Hnone).
  { destruct (delete_account_cases req w)
      as [[e He]|[(m & v & -> & Hm & Hl & Hr)|(m & i & r & -> & Hm & Hr & Hd)]];
      [congruence|..].
    - exists m, v. rewrite Hr in H. by injection H as _ <-.
    - exists m, (JNum i). rewrite Hd in H. injection H as _ <-.
      split; [done|]. split; [done|]. cbn. by rewrite lookup_delete_eq. }
  rewrite (read_account_run m v w1 Hm), (update_account_run m v w1 Hm), Hnone. done.
Qed.

Lemma not_found_after_delete_witness :
  let req := json_request (JObj {["id" := JNum 1]}) in
  status_code (read_account req one_account).1 = 200 ∧
  status_code (read_account req (delete_account req one_account).2).1 = 404.
Proof.
  intros req. split; [reflexivity|].
  destruct (delete_account req one_account) as [[e|resp] w1] eqn:H.
  - vm_compute in H. discriminate H.
  - cbn [snd]. exact (proj1 (not_found_after_delete _ _ _ _ H)).
Defined.

(** After an update that answered, read-one sent with the same body
    returns the very response the update gave. *)
Theorem read_after_update req w resp w1 :
  update_account req w = (inr resp, w1) →
  (read_account req w1).1 = inr resp.
Proof.
  intros H.
  destruct (update_account_cases req w)
    as [[e He]|[[e He]|(m & i & r & a & -> & Hm & Hr & D & Hu)]]; [congruence..|].
  rewrite Hu in H. injection H as <- <-.
  rewrite (read_account_run m (JNum i) _ Hm). cbn. rewrite lookup_insert_eq. cbn.
  apply decode_Some in D as (Hid & _). cbn in Hid. by rewrite of_to_row.
Qed.

Lemma read_after_update_witness :
  ∃ resp w1,
    update_account (json_request bob) one_account = (inr resp, w1) ∧
    (read_account (json_request bob) w1).1 = inr resp.
Proof.
  destruct (update_account (json_request bob) one_account) as [[e|resp] w1] eqn:H.
  - vm_compute in H. discriminate H.
  - exists resp, w1. split; [reflexivity|].
    exact (read_after_update _ _ _ _ H).
Defined.

(** ** Status codes *)

(** The failures that stop read-one, update and delete before the
    lookup. *)
Lemma stops_before_lookup handler req w :
  handler ∈ [read_account; update_account; delete_account] →
  (∀ m v, req = json_request (JObj m) → m !! "id" ≠ Some v) →
  ∃ e, handler req w = (inl e, w) ∧
       e ∈ [Aborted 415 "Content-Type must be application/json";
            Aborted 400 "Failed to decode JSON object";
            Raised (KeyError "id"); Raised TypeError].
Proof.
  intros Hh Hno.
  destruct (request_cases req) as [Hct|[[Hct Hb]|[(j & -> & Hj)|[(m & -> & Hm)|(m & v & -> & Hm)]]]].
  - exists (Aborted 415 "Content-Type must be application/json").
    split; [|apply list_elem_of_here].
    destruct (gate_rejects leap_day req w Hct) as (_ & Hr & Hu & Hd).
    rewrite !elem_of_cons, elem_of_nil in Hh. by destruct Hh as [->|[->|[->|[]]]].
  - exists (Aborted 400 "Failed to decode JSON object").
    split; [|apply list_elem_of_further, list_elem_of_here].
    destruct (no_json_body leap_day req w Hct Hb) as (_ & Hr & Hu & Hd).
    rewrite !elem_of_cons, elem_of_nil in Hh. by destruct Hh as [->|[->|[->|[]]]].
  - exists (Raised TypeError). split.
    + rewrite (no_id_raises handler j w Hh); [by destruct j; try done; destruct (Hj m)|].
      intros m ->. by destruct (Hj m).
    + do 3 apply list_elem_of_further. apply list_elem_of_here.
  - exists (Raised (KeyError "id")). split.
    + rewrite (no_id_raises handler (JObj m) w Hh); [done|]. by intros m' [= <-].
    + do 2 apply list_elem_of_further. apply list_elem_of_here.
  - by destruct (Hno m v eq_refl).
Qed.

(** The answers that the route code itself gives, on every request and
    table.  A response of create has status 201, one of list-all, read-one
    or update 200, one of delete 204.  The only aborts are the gate's 415
    and the 400 of a body that is not JSON, and for read-one and update
    the 404 of the not-found branch, which is reached only with an
    identifier the lookup did not find; create, list-all and delete never
    abort with 404.  Whatever else stops a handler is an exception, not an
    abort of the route. *)
Theorem route_answers today req w :
  (∀ resp, (create_accounts today req w).1 = inr resp →
           resp_status resp = status.HTTP_201_CREATED) ∧
  (∀ resp, (read_all_accounts w).1 = inr resp → resp_status resp = status.HTTP_200_OK) ∧
  (∀ resp, (read_account req w).1 = inr resp → resp_status resp = status.HTTP_200_OK) ∧
  (∀ resp, (update_account req w).1 = inr resp → resp_status resp = status.HTTP_200_OK) ∧
  (∀ resp, (delete_account req w).1 = inr resp →
           resp_status resp = status.HTTP_204_NO_CONTENT) ∧
  (∀ code d, (create_accounts today req w).1 = inl (Aborted code d) → code ∈ [400; 415]) ∧
  (∀ code d, (read_all_accounts w).1 ≠ inl (Aborted code d)) ∧
  (∀ code d, (delete_account req w).1 = inl (Aborted code d) → code ∈ [400; 415]) ∧
  (∀ handler code d,
     handler ∈ [read_account; update_account] →
     (handler req w).1 = inl (Aborted code d) →
     code ∈ [400; 415] ∨
     code = status.HTTP_404_NOT_FOUND ∧
     ∃ m v, req = json_request (JObj m) ∧ m !! "id" = Some v ∧
            Account.lookup (db w) v = None).
Proof.
  assert (Hearly : ∀ handler,
            handler ∈ [read_account; update_account; delete_account] →
            (∀ m v, req = json_request (JObj m) → m !! "id" ≠ Some v) →
            (∀ resp, (handler req w).1 ≠ inr resp) ∧
            (∀ code d, (handler req w).1 = inl (Aborted code d) → code ∈ [400; 415])).
  { intros handler Hh Hno.
    destruct (stops_before_lookup handler req w Hh Hno) as (e & -> & He).
    rewrite !elem_of_cons, elem_of_nil in He. split; [done|].
    intros code d. destruct He as [->|[->|[->|[->|[]]]]]; cbn; intros [= <-]; set_solver. }
  assert ((∃ m v, req = json_request (JObj m) ∧ m !! "id" = Some v) ∨
          (∀ m v, req = json_request (JObj m) → m !! "id" ≠ Some v))
    as Hsplit.
  { destruct (request_cases req)
      as [Hct|[[Hct Hb]|[(j & -> & Hj)|[(m & -> & Hm)|(m & v & -> & Hm)]]]].
    - right. intros m v -> _. by destruct Hct.
    - right. by intros m v -> _.
    - right. intros m v [= ->]%json_request_inj _. by destruct (Hj m).
    - right. intros m' v [= <-]%json_request_inj. congruence.
    - left. eauto. }
  split; [|split; [|split; [|split; [|split; [|split; [|split; [|split]]]]]]].
  - intros resp H.
    destruct (create_accounts_cases today req w) as [[e He]|(data & a & _ & _ & Hr)];
      cbn zeta in *; [rewrite He in H; discriminate H|].
    rewrite Hr in H. by injection H as <-.
  - by intros resp [= <-].
  - intros resp H.
    destruct (read_account (req) w) as [r w'] eqn:E. cbn in H. subst r.
    by apply read_account_inv in E as (m & i & r & _ & _ & _ & -> & _).
  - intros resp H.
    destruct (update_account_cases req w)
      as [[e He]|[[e He]|(m & i & r & a & _ & _ & _ & _ & Hr)]];
      rewrite ?He, ?Hr in H; [discriminate H..|]. by injection H as <-.
  - intros resp H.
    destruct (delete_account_cases req w)
      as [[e He]|[(m & v & _ & _ & _ & Hr)|(m & i & r & _ & _ & _ & Hr)]];
      rewrite ?He, ?Hr in H; [discriminate H|by injection H as <-..].
  - intros code d H.
    destruct (decide (content_type req = Some "application/json")) as [Hct|Hct].
    + destruct (body req) as [data|] eqn:Hb.
      * destruct req as [ct b]; cbn in Hct, Hb; subst ct b. fold (json_request data) in H.
        destruct (Account.decode (Account.new today) data) as [a|] eqn:D.
        -- by rewrite (create_accounts_run _ _ _ _ D) in H.
        -- destruct (create_accounts_invalid today data w D) as [msg Hmsg].
           by rewrite Hmsg in H.
      * destruct (no_json_body today req w Hct Hb) as (Hc & _).
        rewrite Hc in H. injection H as <- _. set_solver.
    + destruct (gate_rejects today req w Hct) as (Hc & _).
      rewrite Hc in H. injection H as <- _. set_solver.
  - done.
  - intros code d H. destruct Hsplit as [(m & v & -> & Hm)|Hno].
    + by rewrite (delete_account_run m v w Hm) in H.
    + destruct (Hearly delete_account) as [_ Ha]; [set_solver|done|]. by eapply Ha.
  - intros handler code d Hh H. destruct Hsplit as [(m & v & -> & Hm)|Hno].
    + rewrite !elem_of_cons, elem_of_nil in Hh. destruct Hh as [->|[->|[]]].
      * rewrite (read_account_run m v w Hm) in H.
        destruct (Account.lookup (db w) v) eqn:E; [done|].
        injection H as <- _. right. split; [done|]. by exists m, v.
      * rewrite (update_account_run m v w Hm) in H.
        destruct (Account.lookup (db w) v) as [stored|] eqn:E.
        -- by destruct (Account.decode stored (JObj m)).
        -- injection H as <- _. right. split; [done|]. by exists m, v.
    + left. destruct (Hearly handler) as [_ Ha]; [set_solver|done|]. by eapply Ha.
Qed.

Lemma route_answers_witness :
  let req := json_request (JObj {["id" := JNum 5]}) in
  (read_account req one_account).1 =
    inl (Aborted 404 "The account cannot be found") ∧
  ∃ m v, req = json_request (JObj m) ∧ m !! "id" = Some v ∧
         Account.lookup (db one_account) v = None.
Proof.
  intros req. split; [reflexivity|].
  destruct (route_answers leap_day req one_account) as (_ & _ & _ & _ & _ & _ & _ & _ & H).
  destruct (H read_account 404 "The account cannot be found") as [Hc|[_ Hex]].
  - apply list_elem_of_here.
  - reflexivity.
  - exfalso. rewrite !elem_of_cons, elem_of_nil in Hc. by destruct Hc as [|[|[]]].
  - exact Hex.
Defined.

(** ** Sending a serialized Account back *)

Lemma digit_of_char_of k : 0 ≤ k < 10 → date.digit_of (date.char_of k) = Some k.
Proof.
  intros Hk.
  assert (k = 0 ∨ k = 1 ∨ k = 2 ∨ k = 3 ∨ k = 4 ∨ k = 5 ∨ k = 6 ∨ k = 7 ∨ k = 8 ∨ k = 9)
    as H by lia.
  repeat (destruct H as [->|H]; [reflexivity|]). by subst k.
Qed.

Lemma days_in_month_bounds y m :
  0 < date.days_in_month y m → 1 ≤ m ≤ 12 ∧ date.days_in_month y m ≤ 31.
Proof.
  unfold date.days_in_month.
  destruct m as [|p|p]; try lia.
  do 4 (try destruct p as [p|p|]); try lia; destruct (date.is_leap y); lia.
Qed.

Lemma year_digits y :
  1 ≤ y ≤ 9999 →
  1000 * ((y / 1000) mod 10) + 100 * ((y / 100) mod 10) +
  10 * ((y mod 100) / 10) + (y mod 100) mod 10 = y.
Proof.
  intros Hy.
  assert (H1 : (y / 1000) mod 10 = y / 1000) by (apply Z.mod_small; euclid).
  assert (H3 : (y / 100) mod 10 = y / 100 - 10 * (y / 1000)).
  { replace (y / 1000) with (y / 100 / 10) by (by rewrite Z.div_div by lia). euclid. }
  rewrite H1, H3. euclid.
Qed.

#[local] Arguments date.char_of : simpl never.
#[local] Arguments date.digit_of : simpl never.
#[local] Arguments date.valid : simpl never.

Lemma fromisoformat_isoformat d :
  date.valid d = true → date.fromisoformat (date.isoformat d) = Some d.
Proof.
  intros Hv. pose proof Hv as Hv'. destruct d as [y m dd].
  unfold date.valid in Hv'. cbn in Hv'.
  rewrite !andb_true_iff, !Z.leb_le in Hv'. destruct Hv' as (((Hy1 & Hy2) & Hd1) & Hd2).
  destruct (days_in_month_bounds y m) as [Hm Hdim]; [lia|].
  unfold date.isoformat, date.pad4, date.pad2, date.fromisoformat.
  cbv [String.append date.year date.month date.day]. cbn.
  rewrite !digit_of_char_of by euclid. cbn.
  rewrite year_digits by lia.
  replace (10 * (m / 10) + m mod 10) with m by euclid.
  replace (10 * (dd / 10) + dd mod 10) with dd by euclid.
  by rewrite Hv.
Qed.

(** Decoding the serialization of an Account gives the Account back,
    under the identifier of the object decoded into. *)
Lemma decode_serialize self a :
  Account.name a ≠ "" →
  date.valid (Account.date_joined a) = true →
  Account.decode self (Account.serialize a) =
  Some (Account.mk (Account.id self) (Account.name a) (Account.email a) (Account.address a)
                   (Account.phone_number a) (Account.date_joined a)).
Proof.
  intros Hn Hd.
  destruct (serialize_fields a) as (_ & Hname & He & Ha & Hp & Hdt).
  unfold field, Account.serialize in *.
  unfold Account.decode, Account.text_field, Account.date_field.
  rewrite Hname, He, Ha, Hp, Hdt. cbn.
  rewrite option_guard_True by done. cbn.
  by rewrite (fromisoformat_isoformat _ Hd).
Qed.

(** Sending back, as an update, the body read-one returned for a stored
    Account with a non-empty name and a calendar date is answered 200 with
    that same body, and the table after it is the table before. *)
Theorem update_with_read_body i r w :
  Table.rows (db w) !! i = Some r →
  Table.name r ≠ "" →
  date.valid (Table.date_joined r) = true →
  let record := Account.serialize (Account.of_row i r) in
  (read_account (json_request (JObj {["id" := JNum i]})) w).1 =
    inr (make_response (jsonify record) status.HTTP_200_OK ∅) ∧
  (update_account (json_request record) w).1 =
    inr (make_response (jsonify record) status.HTTP_200_OK ∅) ∧
  db (update_account (json_request record) w).2 = db w.
Proof.
  intros Hr Hn Hd record. split.
  - rewrite (read_account_run _ (JNum i)) by apply lookup_singleton_eq. cbn. by rewrite Hr.
  - pose proof (update_account_run _ (JNum i) w
                  (proj1 (serialize_fields (Account.of_row i r)))) as Hrun.
    change (JObj _) with record in Hrun.
    replace (Account.lookup (db w) (JNum i)) with (Some (Account.of_row i r)) in Hrun
      by (cbn; by rewrite Hr).
    subst record.
    rewrite (decode_serialize (Account.of_row i r) (Account.of_row i r)) in Hrun by done.
    rewrite Hrun. cbn. destruct r; cbn. split; [done|].
    rewrite insert_id by done. by destruct (db w).
Qed.

Lemma update_with_read_body_witness :
  let record := Account.serialize
    (Account.mk (Some 1) "Alice" "a@x.com" "1 Main St" "555-1111" leap_day) in
  (update_account (json_request record) one_account).1 =
    inr (make_response (jsonify record) 200 ∅) ∧
  db (update_account (json_request record) one_account).2 = db one_account.
Proof.
  intros record.
  destruct (update_with_read_body 1
              (Table.mkrow "Alice" "a@x.com" "1 Main St" "555-1111" leap_day) one_account)
    as (_ & Hu & Hdb); [reflexivity|discriminate|reflexivity|].
  split; [exact Hu|exact Hdb].
Defined.

(** ** Listing after a write *)

(** List-all follows the writes.  After a create that answered, on a
    well-formed table, the array holds the body create returned and is one
    element longer than the table was; after a delete that answered, no
    listed record carries the identifier deleted. *)
Theorem list_all_after_write today req w resp w1 :
  (table_wf (db w) →
   create_accounts today req w = (inr resp, w1) →
   ∃ arr record,
     (read_all_accounts w1).1 = inr (make_response (jsonify (JArr arr)) status.HTTP_200_OK ∅) ∧
     resp_body resp = jsonify record ∧
     record ∈ arr ∧
     length arr = S (size (Table.rows (db w)))) ∧
  (delete_account req w = (inr resp, w1) →
   ∃ arr v,
     (read_all_accounts w1).1 = inr (make_response (jsonify (JArr arr)) status.HTTP_200_OK ∅) ∧
     body req ≫= (λ j, field j "id") = Some v ∧
     ∀ record, record ∈ arr → field record "id" ≠ Some v).
Proof.
  split.
  - intros Hwf H.
    destruct (create_accounts_cases today req w) as [[e He]|(data & a & _ & _ & Hr)];
      [congruence|]. cbn zeta in Hr. rewrite Hr in H. injection H as <- <-.
    eexists _, _. rewrite read_all_accounts_run. split; [done|]. split; [done|]. split.
    + apply listed_iff. eexists _, _. cbn. rewrite lookup_insert_eq. done.
    + rewrite !length_fmap, length_map_to_list. cbn.
      by rewrite map_size_insert_None by by apply table_wf_fresh_id.
  - intros H.
    assert (∃ m v, req = json_request (JObj m) ∧ m !! "id" = Some v ∧
                   Account.lookup (db w1) v = None) as (m & v & -> & Hm & Hnone).
    { destruct (delete_account_cases req w)
        as [[e He]|[(m & v & -> & Hm & Hl & Hr)|(m & i & r & -> & Hm & Hr & Hd)]];
        [congruence|..].
      - exists m, v. rewrite Hr in H. by injection H as _ <-.
      - exists m, (JNum i). rewrite Hd in H. injection H as _ <-.
        split; [done|]. split; [done|]. cbn. by rewrite lookup_delete_eq. }
    eexists _, v. rewrite read_all_accounts_run. split; [done|]. split; [done|].
    intros record (i & r & Hr & ->)%listed_iff Hf.
    destruct (serialize_fields (Account.of_row i r)) as (Hid & _).
    rewrite Hid in Hf. cbn in Hf. injection Hf as <-.
    cbn in Hnone, Hr. rewrite Hr in Hnone. discriminate Hnone.
Qed.

Lemma list_all_after_write_witness :
  ∃ resp w1 arr,
    delete_account (json_request (JObj {["id" := JNum 1]})) one_account = (inr resp, w1) ∧
    (read_all_accounts w1).1 = inr (make_response (jsonify (JArr arr)) 200 ∅) ∧
    ∀ record, record ∈ arr → field record "id" ≠ Some (JNum 1).
Proof.
  destruct (delete_account (json_request (JObj {["id" := JNum 1]})) one_account)
    as [[e|resp] w1] eqn:H.
  - vm_compute in H. discriminate H.
  - destruct (list_all_after_write leap_day (json_request (JObj {["id" := JNum 1]}))
                one_account resp w1) as [_ Hd].
    destruct (Hd H) as (arr & v & Harr & Hv & Hno).
    exists resp, w1, arr. split; [reflexivity|]. split; [exact Harr|].
    cbn in Hv. rewrite lookup_singleton_eq in Hv. injection Hv as <-. exact Hno.
Defined.

(** ** Creating Accounts in bulk *)

Lemma create_factory_account today a w :
  factory_made a →
  let n := Table.next_id (db w) in
  create_accounts today (json_request (Account.serialize a)) w =
  (inr (make_response (jsonify (Account.serialize (set_id a (JNum n)))) 201
                      {["Location" := "/"]}),
   mkWorld (Table.mk (<[n := Account.to_row a]> (Table.rows (db w))) (n + 1))
           (CallCreate :: calls w)).
Proof.
  intros [Hn Hd] n.
  by rewrite (create_accounts_run today _ _ w (decode_serialize (Account.new today) a Hn Hd)).
Qed.

Lemma with_ids_ids n accounts :
  Account.id <$> with_ids n accounts = Some <$> seqZ n (Z.of_nat (length accounts)).
Proof.
  revert n. induction accounts as [|a accounts IH]; intros n; [done|].
  cbn [with_ids length]. rewrite seqZ_cons by lia. rewrite !fmap_cons.
  f_equal. rewrite (IH (n + 1)). do 2 f_equal; lia.
Qed.

Lemma bulk_create_run today factory w :
  Forall factory_made factory →
  table_wf (db w) →
  ∃ w',
    _create_accounts today factory w = (inr (with_ids (Table.next_id (db w)) factory), w') ∧
    table_wf (db w') ∧
    (∀ j, j < Table.next_id (db w) → Table.rows (db w') !! j = Table.rows (db w) !! j) ∧
    (∀ a, a ∈ with_ids (Table.next_id (db w)) factory →
          Account.lookup (db w') (from_option JNum JNull (Account.id a)) = Some a) ∧
    size (Table.rows (db w')) = (size (Table.rows (db w)) + length factory)%nat.
Proof.
  intros Hf. revert w. induction Hf as [|a factory Ha Hf IH]; intros w Hwf.
  - exists w. cbn. repeat split; try done. by intros a Ha%elem_of_nil.
  - cbn [_create_accounts with_ids].
    rewrite (create_factory_account today a w Ha). cbn zeta.
    set (n := Table.next_id (db w)).
    set (w1 := mkWorld _ _).
    assert (Hwf1 : table_wf (db w1)).
    { apply map_Forall_insert_2; [cbn; lia|].
      intros j r Hj. apply Hwf in Hj. cbn in Hj |- *. lia. }
    destruct (IH w1 Hwf1) as (w' & Hrun & Hwf' & Hold & Hnew & Hsize).
    change (Table.next_id (db w1)) with (n + 1) in *.
    cbn [status_code resp_status]. rewrite bool_decide_eq_true_2 by done.
    assert (response_id (response_json
              (inr (make_response (jsonify (Account.serialize (set_id a (JNum n)))) 201
                                  {["Location" := "/"]}))) = inr (JNum n)) as -> by done.
    rewrite Hrun. exists w'. split; [|split; [done|split; [|split]]].
    + done.
    + intros j Hj. rewrite Hold by lia. cbn. apply lookup_insert_ne. lia.
    + intros a' [->|Ha']%elem_of_cons; [|by apply Hnew].
      cbn. rewrite Hold by lia. cbn. rewrite lookup_insert_eq. cbn. by destruct a.
    + rewrite Hsize. cbn. rewrite map_size_insert_None by by apply table_wf_fresh_id. lia.
Qed.

(** [_create_accounts], given Accounts with a name and a calendar date and
    a well-formed table, never fails its assertion: it returns the
    factory's Accounts, in order, each under the identifier the service
    gave it; these identifiers are pairwise distinct; the table has grown
    by as many rows; and reading any of the returned Accounts by its
    identifier answers 200 with exactly its serialization. *)
Theorem bulk_create_ok today factory w :
  table_wf (db w) →
  Forall factory_made factory →
  ∃ accounts w',
    _create_accounts today factory w = (inr accounts, w') ∧
    Forall2 (λ a a', ∃ i, a' = set_id a (JNum i)) factory accounts ∧
    NoDup (Account.id <$> accounts) ∧
    size (Table.rows (db w')) = (size (Table.rows (db w)) + length factory)%nat ∧
    ∀ a, a ∈ accounts →
      (read_account
         (json_request (JObj {["id" := from_option JNum JNull (Account.id a)]})) w').1 =
      inr (make_response (jsonify (Account.serialize a)) status.HTTP_200_OK ∅).
Proof.
  intros Hwf Hf.
  destruct (bulk_create_run today factory w Hf Hwf) as (w' & Hrun & _ & _ & Hnew & Hsize).
  exists (with_ids (Table.next_id (db w)) factory), w'.
  split; [done|]. split; [|split; [|split; [done|]]].
  - clear. generalize (Table.next_id (db w)).
    induction factory as [|a factory IH]; intros n; cbn; constructor; eauto.
  - rewrite with_ids_ids. apply (NoDup_fmap_2 _), NoDup_seqZ.
  - intros a Ha.
    rewrite (read_account_run _ _ w' (lookup_singleton_eq _ _)).
    by rewrite (Hnew a Ha).
Qed.

Lemma bulk_create_ok_witness :
  let factory := [Account.mk None "Alice" "a@x.com" "1 Main St" "555-1111" leap_day;
                  Account.mk (Some 7) "Bob" "b@x.com" "2 Main St" "555-2222" leap_day] in
  ∃ accounts w',
    _create_accounts leap_day factory (fresh Table.empty) = (inr accounts, w') ∧
    Account.id <$> accounts = [Some 1; Some 2] ∧
    size (Table.rows (db w')) = 2%nat.
Proof.
  intros factory.
  destruct (bulk_create_ok leap_day factory (fresh Table.empty))
    as (accounts & w' & Hrun & _ & _ & Hsize & _).
  - apply map_Forall_empty.
  - repeat constructor; discriminate.
  - exists accounts, w'. split; [exact Hrun|]. split; [|exact Hsize].
    vm_compute in Hrun. by injection Hrun as <- _.
Defined.

(** ** [delete_account_test] *)

(** [delete_account_test] cannot pass against these routes.  Whatever
    Account the factory makes, the create and the delete go through (the
    table ends with the rows it started with), and the test then stops
    with [TypeError] at [len(response1.get_json())]: the 204 response
    carries an empty text, which is no JSON document. *)
Theorem delete_account_test_errors today account w :
  factory_made account →
  table_wf (db w) →
  (delete_account_test today account w).1 = inl (Errored TypeError) ∧
  Table.rows (db (delete_account_test today account w).2) = Table.rows (db w) ∧
  calls (delete_account_test today account w).2 =
    CallDelete :: CallFind :: CallCreate :: calls w.
Proof.
  intros Ha Hwf. unfold delete_account_test.
  cbn [_create_accounts]. rewrite (create_factory_account today account w Ha). cbn zeta.
  cbn [status_code resp_status]. rewrite bool_decide_eq_true_2 by done.
  set (n := Table.next_id (db w)).
  assert (response_id (response_json
            (inr (make_response (jsonify (Account.serialize (set_id account (JNum n)))) 201
                                {["Location" := "/"]}))) = inr (JNum n)) as -> by done.
  cbn [lookup list_lookup set_id Account.id from_option].
  rewrite (delete_account_run _ (JNum n)) by apply lookup_singleton_eq.
  cbn. rewrite lookup_insert_eq. cbn.
  split; [done|]. split; [|done].
  rewrite delete_insert_eq. apply delete_id. by apply table_wf_fresh_id.
Qed.

Lemma delete_account_test_errors_witness :
  (delete_account_test leap_day
     (Account.mk None "Alice" "a@x.com" "1 Main St" "555-1111" leap_day)
     (fresh Table.empty)).1 = inl (Errored TypeError).
Proof.
  apply (delete_account_test_errors leap_day
           (Account.mk None "Alice" "a@x.com" "1 Main St" "555-1111" leap_day)
           (fresh Table.empty)).
  - split; [discriminate|reflexivity].
  - apply map_Forall_empty.
Defined.
